(** * Peak-Team-1 back end: stand queues, queue entries, users and sessions

    A shallow embedding of the Express route handlers of
    [src/routes/queues.routes.js], [src/routes/enterprise.queue.routes.js],
    [src/routes/auth.routes.js], the enterprise-creation route,
    [src/apis/auth.js], [src/apis/authMiddleware.js] and
    [src/middleware/checkRole.js], over the Sequelize models [User],
    [Session], [StandQueue] and [QueueEntry].

    Modelling conventions.
    - A table is the list of its rows in insertion order.  [findByPk] and
      [findOne] return the first row that satisfies the where-clause,
      [count] the number of rows that do, an instance [update] rewrites
      the row(s) carrying the instance's primary key.
    - Primary keys are UUIDs in the source; here they are naturals drawn
      from a counter kept in the database state.
    - Attribute names are resolved as Sequelize resolves them: exactly as
      written.  [QueueEntry.belongsTo(User)], [QueueEntry.belongsTo
      (StandQueue)] and [Session.belongsTo(User)] are declared without a
      [foreignKey] option, so the keys they add are [UserId] and
      [StandQueueId].  Sequelize writes a where-clause's names into the
      statement quoted and as given, and the database matches quoted
      column names exactly, as PostgreSQL does (the Session table, with
      its declared column [userId] next to the key [UserId], can only
      be created on a database that tells the two apart): a
      where-clause on a name the table does not have is refused by the
      database and the query throws.  [create] drops a value given
      under a name that is no attribute; reading such a name from an
      instance gives [undefined].
    - JavaScript integers are [Z]; [Math.max] is [Z.max]; a string is the
      sequence of its characters.
    - Sequelize runs the attribute validators of a model on [create] and
      on [update]; a failing validator rejects the promise, the [catch]
      block of the handler answers 500 and the row is not written.  What
      was written before the failing call stays written: the handlers use
      no transaction.
    - [new Date()] is an input of the handler ([now]).
    - A handler is a function from the request data and the database to a
      response and the new database.  A request is handled in one step
      and requests are served one after the other; what two requests
      interleaved at their [await]s can do is not described here.
    - The routes are described at two levels.  [handle] and [handle_user]
      take a request from the end of [authMiddleware] on: how the
      middleware ended ([Session], and with it [req.user]) is an input,
      and the state is the tables the handlers write.  [serve] runs the
      middleware itself, on the session table. *)

From Stdlib Require Import ZArith List Ascii String Bool Arith Lia.
Import ListNotations.
Open Scope Z_scope.

(** ** Data model *)

Definition Id := nat.

Inductive Role := Admin | Organizer | Participant | Enterprise.

Definition Role_name (r : Role) : string :=
  match r with
  | Admin => "Admin"
  | Organizer => "Organizer"
  | Participant => "Participant"
  | Enterprise => "Enterprise"
  end.

Definition Role_eqb (a b : Role) : bool :=
  match a, b with
  | Admin, Admin | Organizer, Organizer
  | Participant, Participant | Enterprise, Enterprise => true
  | _, _ => false
  end.

(** What a rejected promise or a thrown error carries into [catch]. *)
Inductive Exn :=
| ValidationError            (* a model validator failed *)
| TypeError                  (* a property of null or undefined was read *)
| DatabaseError              (* the database refused the statement *)
| QueryError                 (* Sequelize refused to build the statement *)
| SystemError.               (* a file-system call failed *)

(** models/user.js *)
Module User.
Record t := mk {
  id : Id;
  username : string;
  passwordHash : string;
  salt : string;
  role : Role
}.
End User.

(** models/session.js.  The model declares [userId]; the call
    [Session.belongsTo(User)] below the declaration adds the key
    [UserId], which is the one an [include: User] joins on. *)
Module SessionRow.
Record t := mk {
  id : Id;
  userId : Id;                  (* allowNull: false *)
  UserId : option Id;           (* belongsTo(User); null unless written *)
  expiresAt : Z                 (* milliseconds since the epoch *)
}.
End SessionRow.

(** models/standQueue.js: ENUM('Open', 'Full', 'Closed') *)
Inductive StandStatus := Open | Full | Closed.

Definition StandStatus_eqb (a b : StandStatus) : bool :=
  match a, b with
  | Open, Open | Full, Full | Closed, Closed => true
  | _, _ => false
  end.

Module StandQueue.
Record t := mk {
  id : Id;
  enterpriseId : string;           (* STRING, allowNull: false *)
  status : StandStatus;            (* defaultValue: 'Open' *)
  currentParticipants : Z;         (* defaultValue: 0, validate min 0 max 4 *)
  totalProcessed : Z               (* defaultValue: 0 *)
}.

(** The [validate: { min: 0, max: 4 }] block of [currentParticipants]. *)
Definition min : Z := 0.
Definition max : Z := 4.

Definition validate (s : t) : bool :=
  (min <=? currentParticipants s) && (currentParticipants s <=? max).

(** [DataTypes.STRING] is a column of at most 255 characters. *)
Definition STRING_length : nat := 255.

Definition fits (s : t) : bool :=
  Nat.leb (String.length (enterpriseId s)) STRING_length.
End StandQueue.

(** models/queueEntry.js: ENUM('Waiting', 'Active', 'Completed',
    'Cancelled') *)
Inductive EntryStatus := Waiting | Active | Completed | Cancelled.

Definition EntryStatus_eqb (a b : EntryStatus) : bool :=
  match a, b with
  | Waiting, Waiting | Active, Active | Completed, Completed
  | Cancelled, Cancelled => true
  | _, _ => false
  end.

(** The value of the ENUM a string stands for, if any. *)
Definition EntryStatus_of_string (s : string) : option EntryStatus :=
  if String.eqb s "Waiting" then Some Waiting
  else if String.eqb s "Active" then Some Active
  else if String.eqb s "Completed" then Some Completed
  else if String.eqb s "Cancelled" then Some Cancelled
  else None.

(** [status: { [Op.in]: ['Waiting', 'Active'] }] *)
Definition in_Waiting_Active (s : EntryStatus) : bool :=
  match s with
  | Waiting | Active => true
  | _ => false
  end.

Module QueueEntry.
Record t := mk {
  id : Id;
  status : EntryStatus;            (* defaultValue: 'Waiting' *)
  joinedAt : Z;                    (* defaultValue: NOW *)
  startedAt : option Z;
  completedAt : option Z;
  UserId : option Id;              (* belongsTo(User) *)
  StandQueueId : option Id         (* belongsTo(StandQueue) *)
}.

(** The columns of the table: the declared attributes, the timestamps
    and the two association keys. *)
Definition attributes : list string :=
  ["id"; "status"; "joinedAt"; "startedAt"; "completedAt";
   "createdAt"; "updatedAt"; "UserId"; "StandQueueId"]%string.

Definition isAttribute (name : string) : bool :=
  existsb (String.eqb name) attributes.

(** [entry.name] for a key: [None] is [undefined] (the name is no
    attribute of the model) or [null]. *)
Definition get (e : t) (name : string) : option Id :=
  if String.eqb name "id" then Some (id e)
  else if String.eqb name "UserId" then UserId e
  else if String.eqb name "StandQueueId" then StandQueueId e
  else None.

(** The entries of a where-clause, as the handlers write them. *)
Inductive Condition :=
| key_is (name : string) (v : Id)                   (* name: v *)
| status_is (name : string) (v : EntryStatus)       (* name: 'Active' *)
| status_in (name : string) (vs : list EntryStatus). (* name: { [Op.in] } *)

Definition column (c : Condition) : string :=
  match c with
  | key_is name _ | status_is name _ | status_in name _ => name
  end.

Definition satisfies (e : t) (c : Condition) : bool :=
  match c with
  | key_is name v =>
      match get e name with
      | Some k => Nat.eqb k v
      | None => false
      end
  | status_is name v =>
      String.eqb name "status" && EntryStatus_eqb (status e) v
  | status_in name vs =>
      String.eqb name "status" && existsb (EntryStatus_eqb (status e)) vs
  end.

(** The rows a where-clause selects; the database refuses a clause on a
    column the table does not have. *)
Definition select (where_ : list Condition) (rows : list t)
  : Exn + list t :=
  if forallb (fun c => isAttribute (column c)) where_
  then inr (filter (fun e => forallb (satisfies e) where_) rows)
  else inl DatabaseError.

(** The values handed to [QueueEntry.create]. *)
Inductive Value :=
| key_value (name : string) (v : Id)
| status_value (name : string) (v : EntryStatus).

(** One value set on an instance being built; a name that is no
    attribute is dropped. *)
Definition assign (e : t) (v : Value) : t :=
  match v with
  | key_value name k =>
      if String.eqb name "UserId"
      then mk (id e) (status e) (joinedAt e) (startedAt e) (completedAt e)
              (Some k) (StandQueueId e)
      else if String.eqb name "StandQueueId"
      then mk (id e) (status e) (joinedAt e) (startedAt e) (completedAt e)
              (UserId e) (Some k)
      else e
  | status_value name s =>
      if String.eqb name "status"
      then mk (id e) s (joinedAt e) (startedAt e) (completedAt e)
              (UserId e) (StandQueueId e)
      else e
  end.

(** The instance [create] builds: a fresh key, the defaults, then the
    values. *)
Definition build (pk : Id) (now : Z) (values : list Value) : t :=
  fold_left assign values (mk pk Waiting now None None None None).
End QueueEntry.

(** The two queue tables and the UUID source. *)
Record DB := mkDB {
  standQueues : list StandQueue.t;
  queueEntries : list QueueEntry.t;
  nextId : Id
}.

Definition emptyDB : DB := mkDB [] [] 0%nat.

(** The user table. *)
Record UserDB := mkUserDB {
  users : list User.t;
  nextUserId : Id
}.

(** The user and session tables and the UUID source of the sessions. *)
Record AuthDB := mkAuthDB {
  userDB : UserDB;
  sessions : list SessionRow.t;
  nextSessionId : Id
}.

(** ** Responses *)

(** [{ id, username, role }], the user as [login] and
    [validateSession] return it. *)
Record UserInfo := mkUserInfo {
  info_id : Id;
  info_username : string;
  info_role : Role
}.

Definition info_of (u : User.t) : UserInfo :=
  mkUserInfo (User.id u) (User.username u) (User.role u).

Inductive Body :=
| ErrorBody (error : string)               (* { error: '...' } *)
| ExnBody (e : Exn)                        (* { error: error.message } *)
| MessageBody (message : string)           (* { message: '...' } *)
| SuccessBody                              (* { success: true } *)
| SuccessMessage (message : string)        (* { success: true, message } *)
| JoinedBody (message : string) (queueEntry : QueueEntry.t)
| EntryBody (queueEntry : QueueEntry.t)    (* res.json(queueEntry) *)
| StandBody (standQueue : StandQueue.t)    (* res.json(standQueue) *)
| UserIdBody (userId : Id)                 (* { success: true, userId } *)
| LoginBody (sessionId : Id) (user : UserInfo).
                       (* the sessionId cookie set, and { user } *)

Record Response := mkResponse {
  statusCode : Z;
  body : Body
}.

Definition json (b : Body) : Response := mkResponse 200 b.
Definition status_json (c : Z) (b : Body) : Response := mkResponse c b.

(** ** Queries and updates (the Sequelize calls the handlers make) *)

Module Orm.

(** [StandQueue.findByPk(param)]: null when [param] is [undefined] or
    [null]. *)
Definition findByPk_StandQueue (param : option Id) (db : DB)
  : option StandQueue.t :=
  match param with
  | None => None
  | Some pk => find (fun s => Nat.eqb (StandQueue.id s) pk) (standQueues db)
  end.

Definition findByPk_QueueEntry (pk : Id) (db : DB) : option QueueEntry.t :=
  find (fun e => Nat.eqb (QueueEntry.id e) pk) (queueEntries db).

(** [StandQueue.findOne({ where: { enterpriseId } })] *)
Definition findOne_StandQueue (enterpriseId : string) (db : DB)
  : option StandQueue.t :=
  find (fun s => String.eqb (StandQueue.enterpriseId s) enterpriseId)
       (standQueues db).

(** [QueueEntry.count({ where })] *)
Definition count_QueueEntry (where_ : list QueueEntry.Condition) (db : DB)
  : Exn + Z :=
  match QueueEntry.select where_ (queueEntries db) with
  | inl error => inl error
  | inr rows => inr (Z.of_nat (List.length rows))
  end.

(** [QueueEntry.findOne({ where })] *)
Definition findOne_QueueEntry (where_ : list QueueEntry.Condition)
           (db : DB) : Exn + option QueueEntry.t :=
  match QueueEntry.select where_ (queueEntries db) with
  | inl error => inl error
  | inr rows => inr (hd_error rows)
  end.

(** The stand queue an entry is joined with by
    [include: [{ model: StandQueue, where: { enterpriseId } }]]: the one
    its [StandQueueId] names, if that one is of the enterprise. *)
Definition included_StandQueue (enterpriseId : string) (db : DB)
           (e : QueueEntry.t) : option StandQueue.t :=
  match findByPk_StandQueue (QueueEntry.StandQueueId e) db with
  | Some s =>
      if String.eqb (StandQueue.enterpriseId s) enterpriseId
      then Some s else None
  | None => None
  end.

(** [QueueEntry.findOne({ where, include: [{ model: StandQueue,
    where: { enterpriseId } }] })]: the entry with [entry.StandQueue]. *)
Definition findOne_QueueEntry_include (where_ : list QueueEntry.Condition)
           (enterpriseId : string) (db : DB)
  : Exn + option (QueueEntry.t * StandQueue.t) :=
  match QueueEntry.select where_ (queueEntries db) with
  | inl error => inl error
  | inr rows =>
      inr (hd_error
             (flat_map (fun e =>
                          match included_StandQueue enterpriseId db e with
                          | Some s => [(e, s)]
                          | None => []
                          end)
                       rows))
  end.

(** [QueueEntry.create(values)]: a fresh primary key, the row appended. *)
Definition create_QueueEntry (values : list QueueEntry.Value) (now : Z)
           (db : DB) : QueueEntry.t * DB :=
  let e := QueueEntry.build (nextId db) now values in
  (e, mkDB (standQueues db) (queueEntries db ++ [e]) (S (nextId db))).

(** [StandQueue.create(...)]: validated, then inserted; the database
    refuses an [enterpriseId] that does not fit its column. *)
Definition create_StandQueue (enterpriseId : string) (status : StandStatus)
           (currentParticipants : Z) (db : DB)
  : Exn + (StandQueue.t * DB) :=
  let s := StandQueue.mk (nextId db) enterpriseId status
                         currentParticipants 0 in
  if StandQueue.validate s
  then if StandQueue.fits s
       then inr (s, mkDB (standQueues db ++ [s]) (queueEntries db)
                         (S (nextId db)))
       else inl DatabaseError
  else inl ValidationError.

(** [entry.update(values)] on a [QueueEntry] instance. *)
Definition update_QueueEntry (e' : QueueEntry.t) (db : DB) : DB :=
  mkDB (standQueues db)
       (map (fun e => if Nat.eqb (QueueEntry.id e) (QueueEntry.id e')
                      then e' else e)
            (queueEntries db))
       (nextId db).

(** The row of a [StandQueue] instance written back. *)
Definition save_StandQueue (s' : StandQueue.t) (db : DB) : DB :=
  mkDB (map (fun s => if Nat.eqb (StandQueue.id s) (StandQueue.id s')
                      then s' else s)
            (standQueues db))
       (queueEntries db)
       (nextId db).

(** [standQueue.update({ currentParticipants: ..., ... })] on a
    [StandQueue] instance: the fields being saved are validated, then
    the row is written. *)
Definition update_StandQueue (s' : StandQueue.t) (db : DB) : Exn + DB :=
  if StandQueue.validate s'
  then inr (save_StandQueue s' db)
  else inl ValidationError.

End Orm.

(** ** apis/auth.js *)

Module Auth.

(** [Auth.register(username, password, role)].  [hashed] is the pair
    (hash, salt) that [Auth.hashPassword(password)] resolved to; the
    salt is random.  A thrown [Error] is returned on the left with its
    message. *)
Definition register (username : string) (hashed : string * string)
           (role : Role) (db : UserDB) : string + (Id * UserDB) :=
  match find (fun u => String.eqb (User.username u) username)
             (users db) with
  | Some _ => inl "Username already exists"%string
  | None =>
      let user := User.mk (nextUserId db) username
                          (fst hashed) (snd hashed) role in
      inr (User.id user,
           mkUserDB (users db ++ [user]) (S (nextUserId db)))
  end.

(** [Auth.changeUserRole(userId, newRole)] *)
Definition changeUserRole (userId : Id) (newRole : Role) (db : UserDB)
  : string + UserDB :=
  match find (fun u => Nat.eqb (User.id u) userId) (users db) with
  | None => inl "User not found"%string
  | Some user =>
      let user' := User.mk (User.id user) (User.username user)
                           (User.passwordHash user) (User.salt user)
                           newRole in
      inr (mkUserDB
             (map (fun u => if Nat.eqb (User.id u) (User.id user')
                            then user' else u)
                  (users db))
             (nextUserId db))
  end.

End Auth.

(** 24 * 60 * 60 * 1000 *)
Definition session_lifetime : Z := 24 * 60 * 60 * 1000.

Section Passwords.

(** [crypto.pbkdf2Sync(password, salt, 1000, 64, 'sha512')
    .toString('hex')], as a function of the password and the salt. *)
Variable pbkdf2Sync : string -> string -> string.

(** [Auth.hashPassword(password)]; [salt] is what
    [crypto.randomBytes(16).toString('hex')] returned. *)
Definition hashPassword (salt password : string) : string * string :=
  (pbkdf2Sync password salt, salt).

(** [Auth.verifyPassword(password, hash, salt)] *)
Definition verifyPassword (password hash salt : string) : bool :=
  String.eqb hash (pbkdf2Sync password salt).

(** [Auth.login(username, password)].  The clock is read when the
    expired sessions are destroyed ([now]) and again when the session
    is created ([now']).  [Session.create] is given [userId] and
    [expiresAt]; the key [UserId] stays null.  A thrown [Error] is
    returned on the left with its message. *)
Definition login (username password : string) (now now' : Z) (db : AuthDB)
  : string + (SessionRow.t * UserInfo * AuthDB) :=
  match find (fun u => String.eqb (User.username u) username)
             (users (userDB db)) with
  | None => inl "Invalid username or password"%string
  | Some user =>
      if negb (verifyPassword password (User.passwordHash user)
                              (User.salt user))
      then inl "Invalid username or password"%string
      else
        let kept := filter (fun s => negb (SessionRow.expiresAt s <? now))
                           (sessions db) in
        let session := SessionRow.mk (nextSessionId db) (User.id user)
                                     None (now' + session_lifetime) in
        inr (session, info_of user,
             mkAuthDB (userDB db) (kept ++ [session])
                      (S (nextSessionId db)))
  end.

End Passwords.

(** [Session.destroy({ where: { id } })] and [session.destroy()] *)
Definition destroy_session (sessionId : Id) (db : AuthDB) : AuthDB :=
  mkAuthDB (userDB db)
           (filter (fun s => negb (Nat.eqb (SessionRow.id s) sessionId))
                   (sessions db))
           (nextSessionId db).

(** [Auth.logout(sessionId)] *)
Definition logout (sessionId : Id) (db : AuthDB) : AuthDB :=
  destroy_session sessionId db.

Definition find_session (sessionId : Id) (db : AuthDB)
  : option SessionRow.t :=
  find (fun s => Nat.eqb (SessionRow.id s) sessionId) (sessions db).

Definition find_user (userId : Id) (db : AuthDB) : option User.t :=
  find (fun u => Nat.eqb (User.id u) userId) (users (userDB db)).

(** [Auth.validateSession(sessionId)] at time [now]: the user is looked
    up with [session.userId]. *)
Definition validateSession (sessionId : Id) (now : Z) (db : AuthDB)
  : (string + UserInfo) * AuthDB :=
  match find_session sessionId db with
  | None => (inl "Invalid session"%string, db)
  | Some session =>
      if SessionRow.expiresAt session <? now
      then (inl "Session expired"%string, destroy_session sessionId db)
      else
        match find_user (SessionRow.userId session) db with
        | None => (inl "User not found"%string, db)
        | Some user => (inr (info_of user), db)
        end
  end.

(** ** Middleware *)

(** The [sessionId] cookie as the session query takes it: a UUID, here
    the key it stands for, or a value on which the query throws. *)
Inductive SessionCookie :=
| Unreadable
| Uuid (sessionId : Id).

(** How apis/authMiddleware.js ends: with one of its four 401 answers,
    or with [next()] and [req.user = session.User], which is null when
    the session was joined with no user. *)
Inductive Session :=
| NoSession                       (* no sessionId cookie *)
| InvalidSession                  (* no such session row *)
| ExpiredSession                  (* expiresAt is in the past *)
| AuthenticationFailed            (* the query threw *)
| ValidSession (user : option User.t).

(** [session.User] after [Session.findOne({ where: { id }, include:
    User })]: the user whose key is the session's [UserId]. *)
Definition included_User (session : SessionRow.t) (db : AuthDB)
  : option User.t :=
  match SessionRow.UserId session with
  | None => None
  | Some pk => find_user pk db
  end.

(** apis/authMiddleware.js, from the session id on, at time [now]. *)
Definition authMiddleware (sessionId : option SessionCookie) (now : Z)
           (db : AuthDB) : Session * AuthDB :=
  match sessionId with
  | None => (NoSession, db)
  | Some Unreadable => (AuthenticationFailed, db)
  | Some (Uuid sessionId) =>
      match find_session sessionId db with
      | None => (InvalidSession, db)
      | Some session =>
          if SessionRow.expiresAt session <? now
          then (ExpiredSession, destroy_session sessionId db)
          else (ValidSession (included_User session db), db)
      end
  end.

(** What the middleware answered, or the [req.user] it passed on. *)
Definition sent (s : Session) : Response + option User.t :=
  match s with
  | NoSession => inl (status_json 401 (ErrorBody "No session provided"))
  | InvalidSession => inl (status_json 401 (ErrorBody "Invalid session"))
  | ExpiredSession => inl (status_json 401 (ErrorBody "Session expired"))
  | AuthenticationFailed =>
      inl (status_json 401 (ErrorBody "Authentication failed"))
  | ValidSession user => inr user
  end.

(** middleware/checkRole.js: [allowedRoles] is an array or a string. *)
Inductive AllowedRoles :=
| RoleArray (roles : list Role)
| RoleString (role : Role).

Definition includes (roles : list Role) (r : Role) : bool :=
  existsb (Role_eqb r) roles.

Definition checkRole (allowedRoles : AllowedRoles)
           (req_user : option User.t) : Response + User.t :=
  match req_user with
  | None => inl (status_json 401 (MessageBody "Unauthorized"))
  | Some user =>
      match allowedRoles with
      | RoleArray roles =>
          if includes roles (User.role user) then inr user
          else inl (status_json 403
                      (MessageBody "Forbidden: Insufficient permissions"))
      | RoleString role =>
          if Role_eqb (User.role user) role then inr user
          else inl (status_json 403
                      (MessageBody "Forbidden: Insufficient permissions"))
      end
  end.

(** [router.post(path, authMiddleware, checkRole(roles), handler)],
    from the end of [authMiddleware] on. *)
Definition guarded {A : Type} (allowedRoles : AllowedRoles)
           (handler : User.t -> A -> Response * A)
           (s : Session) (st : A) : Response * A :=
  match sent s with
  | inl r => (r, st)
  | inr req_user =>
      match checkRole allowedRoles req_user with
      | inl r => (r, st)
      | inr user => handler user st
      end
  end.

(** ** routes/queues.routes.js *)

Module QueuesRoutes.
Import Orm.

(** POST /api/queues/stand.  A body field that is absent is
    [undefined]: [update] skips it (and does not validate it), [create]
    takes the default. *)
Definition stand_handler (enterpriseId : string)
           (status : option StandStatus) (currentParticipants : option Z)
           (db : DB) : Response * DB :=
  match findOne_StandQueue enterpriseId db with
  | Some standQueue =>
      let s' := StandQueue.mk
                  (StandQueue.id standQueue)
                  (StandQueue.enterpriseId standQueue)
                  (match status with
                   | Some v => v
                   | None => StandQueue.status standQueue
                   end)
                  (match currentParticipants with
                   | Some v => v
                   | None => StandQueue.currentParticipants standQueue
                   end)
                  (StandQueue.totalProcessed standQueue) in
      match match currentParticipants with
            | Some _ => update_StandQueue s' db
            | None => inr (save_StandQueue s' db)
            end with
      | inr db' => (json (StandBody s'), db')
      | inl e => (status_json 500 (ExnBody e), db)
      end
  | None =>
      match create_StandQueue enterpriseId
              (match status with Some v => v | None => Open end)
              (match currentParticipants with Some v => v | None => 0 end)
              db with
      | inr (s, db') => (json (StandBody s), db')
      | inl e => (status_json 500 (ExnBody e), db)
      end
  end.

Definition stand enterpriseId status currentParticipants :=
  guarded (RoleArray [Admin; Organizer])
          (fun _ => stand_handler enterpriseId status currentParticipants).

(** POST /api/queues/join *)
Definition join_handler (enterpriseId : string) (now : Z)
           (user : User.t) (db : DB) : Response * DB :=
  match count_QueueEntry
          [QueueEntry.key_is "userId" (User.id user);
           QueueEntry.status_in "status" [Waiting; Active]] db with
  | inl error => (status_json 500 (ExnBody error), db)
  | inr activeQueues =>
      if 2 <=? activeQueues then
        (status_json 400
           (ErrorBody "You can only be in 2 queues at a time"), db)
      else
        match findOne_StandQueue enterpriseId db with
        | None =>
            (status_json 400
               (ErrorBody "This stand queue is not available"), db)
        | Some standQueue =>
            if StandStatus_eqb (StandQueue.status standQueue) Closed then
              (status_json 400
                 (ErrorBody "This stand queue is not available"), db)
            else if StandStatus_eqb (StandQueue.status standQueue) Full
                    && (4 <=? StandQueue.currentParticipants standQueue)
            then
              (status_json 400 (ErrorBody "This stand queue is full"), db)
            else
              let (queueEntry, db') :=
                create_QueueEntry
                  [QueueEntry.key_value "userId" (User.id user);
                   QueueEntry.key_value "standQueueId"
                                        (StandQueue.id standQueue)]
                  now db in
              (json (EntryBody queueEntry), db')
        end
  end.

Definition join enterpriseId now :=
  guarded (RoleArray [Participant]) (join_handler enterpriseId now).

(** POST /api/queues/:queueId/complete *)
Definition complete_handler (queueId : Id) (now : Z) (db : DB)
  : Response * DB :=
  match findByPk_QueueEntry queueId db with
  | None => (status_json 404 (ErrorBody "Queue entry not found"), db)
  | Some entry =>
      let standQueue :=
        findByPk_StandQueue (QueueEntry.get entry "standQueueId") db in
      let db1 :=
        update_QueueEntry
          (QueueEntry.mk (QueueEntry.id entry) Completed
             (QueueEntry.joinedAt entry) (QueueEntry.startedAt entry)
             (Some now)
             (QueueEntry.UserId entry) (QueueEntry.StandQueueId entry))
          db in
      match standQueue with
      | None => (status_json 500 (ExnBody TypeError), db1)
      | Some standQueue =>
          match update_StandQueue
                  (StandQueue.mk
                     (StandQueue.id standQueue)
                     (StandQueue.enterpriseId standQueue)
                     (StandQueue.status standQueue)
                     (Z.max 0
                        (StandQueue.currentParticipants standQueue - 1))
                     (StandQueue.totalProcessed standQueue + 1))
                  db1 with
          | inr db2 => (json SuccessBody, db2)
          | inl e => (status_json 500 (ExnBody e), db1)
          end
      end
  end.

Definition complete queueId now :=
  guarded (RoleArray [Admin; Organizer])
          (fun _ => complete_handler queueId now).

(** POST /api/queues/:queueId/uncomplete *)
Definition uncomplete_handler (queueId : Id) (db : DB) : Response * DB :=
  match findByPk_QueueEntry queueId db with
  | None => (status_json 404 (ErrorBody "Queue entry not found"), db)
  | Some entry =>
      let standQueue :=
        findByPk_StandQueue (QueueEntry.get entry "standQueueId") db in
      let db1 :=
        update_QueueEntry
          (QueueEntry.mk (QueueEntry.id entry) Active
             (QueueEntry.joinedAt entry) (QueueEntry.startedAt entry)
             None
             (QueueEntry.UserId entry) (QueueEntry.StandQueueId entry))
          db in
      match standQueue with
      | None => (status_json 500 (ExnBody TypeError), db1)
      | Some standQueue =>
          match update_StandQueue
                  (StandQueue.mk
                     (StandQueue.id standQueue)
                     (StandQueue.enterpriseId standQueue)
                     (StandQueue.status standQueue)
                     (StandQueue.currentParticipants standQueue + 1)
                     (Z.max 0 (StandQueue.totalProcessed standQueue - 1)))
                  db1 with
          | inr db2 => (json SuccessBody, db2)
          | inl e => (status_json 500 (ExnBody e), db1)
          end
      end
  end.

Definition uncomplete queueId :=
  guarded (RoleArray [Admin; Organizer])
          (fun _ => uncomplete_handler queueId).

End QueuesRoutes.

(** ** routes/enterprise.queue.routes.js *)

Module EnterpriseQueueRoutes.
Import Orm.

(** [StandQueue.findOrCreate({ where: { enterpriseId },
    defaults: { status: 'Open', currentParticipants: 0 } })] *)
Definition findOrCreate_StandQueue (enterpriseId : string) (db : DB)
  : Exn + (StandQueue.t * DB) :=
  match findOne_StandQueue enterpriseId db with
  | Some s => inr (s, db)
  | None => create_StandQueue enterpriseId Open 0 db
  end.

(** POST /api/enterprise/queue/:enterpriseId/join *)
Definition join_handler (enterpriseId : string) (now : Z)
           (user : User.t) (db : DB) : Response * DB :=
  match findOne_QueueEntry
          [QueueEntry.key_is "userId" (User.id user);
           QueueEntry.status_is "status" Active] db with
  | inl error => (status_json 500 (ExnBody error), db)
  | inr (Some _) =>
      (status_json 400 (ErrorBody "You are already in an active queue"),
       db)
  | inr None =>
      match findOrCreate_StandQueue enterpriseId db with
      | inl e => (status_json 500 (ExnBody e), db)
      | inr (standQueue, db0) =>
          if 2 <=? StandQueue.currentParticipants standQueue then
            (status_json 400
               (ErrorBody
                  "Queue is full (maximum 2 concurrent participants)"),
             db0)
          else
            let (queueEntry, db1) :=
              create_QueueEntry
                [QueueEntry.key_value "userId" (User.id user);
                 QueueEntry.key_value "standQueueId"
                                      (StandQueue.id standQueue);
                 QueueEntry.status_value "status" Active]
                now db0 in
            match update_StandQueue
                    (StandQueue.mk
                       (StandQueue.id standQueue)
                       (StandQueue.enterpriseId standQueue)
                       (StandQueue.status standQueue)
                       (StandQueue.currentParticipants standQueue + 1)
                       (StandQueue.totalProcessed standQueue))
                    db1 with
            | inr db2 =>
                (json (JoinedBody "Successfully joined queue" queueEntry),
                 db2)
            | inl e => (status_json 500 (ExnBody e), db1)
            end
      end
  end.

Definition join enterpriseId now :=
  guarded (RoleString Participant) (join_handler enterpriseId now).

(** POST /api/enterprise/queue/:enterpriseId/leave.  The status the
    handler writes, 'Left', is no value of the ENUM of the column: the
    database refuses the update. *)
Definition leave_handler (enterpriseId : string)
           (user : User.t) (db : DB) : Response * DB :=
  match findOne_QueueEntry_include
          [QueueEntry.key_is "userId" (User.id user);
           QueueEntry.status_is "status" Active]
          enterpriseId db with
  | inl error => (status_json 500 (ExnBody error), db)
  | inr None =>
      (status_json 404 (ErrorBody "You are not in this queue"), db)
  | inr (Some (queueEntry, standQueue)) =>
      match EntryStatus_of_string "Left" with
      | None => (status_json 500 (ExnBody DatabaseError), db)
      | Some status =>
          let db1 :=
            update_QueueEntry
              (QueueEntry.mk (QueueEntry.id queueEntry) status
                 (QueueEntry.joinedAt queueEntry)
                 (QueueEntry.startedAt queueEntry)
                 (QueueEntry.completedAt queueEntry)
                 (QueueEntry.UserId queueEntry)
                 (QueueEntry.StandQueueId queueEntry))
              db in
          match update_StandQueue
                  (StandQueue.mk
                     (StandQueue.id standQueue)
                     (StandQueue.enterpriseId standQueue)
                     (StandQueue.status standQueue)
                     (Z.max 0
                        (StandQueue.currentParticipants standQueue - 1))
                     (StandQueue.totalProcessed standQueue))
                  db1 with
          | inr db2 =>
              (json (SuccessMessage "Successfully left queue"), db2)
          | inl e => (status_json 500 (ExnBody e), db1)
          end
      end
  end.

Definition leave enterpriseId :=
  guarded (RoleString Participant) (leave_handler enterpriseId).

End EnterpriseQueueRoutes.

(** ** The queue routes as a transition system *)

Inductive Request :=
| StandReq (enterpriseId : string) (status : option StandStatus)
           (currentParticipants : option Z)
| QueuesJoin (enterpriseId : string) (now : Z)
| Complete (queueId : Id) (now : Z)
| Uncomplete (queueId : Id)
| EnterpriseJoin (enterpriseId : string) (now : Z)
| EnterpriseLeave (enterpriseId : string).

(** A request to a queue route, from the end of [authMiddleware] on. *)
Definition handle (s : Session) (r : Request) (db : DB) : Response * DB :=
  match r with
  | StandReq e st cp => QueuesRoutes.stand e st cp s db
  | QueuesJoin e now => QueuesRoutes.join e now s db
  | Complete q now => QueuesRoutes.complete q now s db
  | Uncomplete q => QueuesRoutes.uncomplete q s db
  | EnterpriseJoin e now => EnterpriseQueueRoutes.join e now s db
  | EnterpriseLeave e => EnterpriseQueueRoutes.leave e s db
  end.

(** The database after a sequence of requests, oldest first. *)
Fixpoint run (reqs : list (Session * Request)) (db : DB) : DB :=
  match reqs with
  | [] => db
  | (s, r) :: rest => run rest (snd (handle s r db))
  end.

Inductive reachable : DB -> Prop :=
| reachable_empty : reachable emptyDB
| reachable_step db s r :
    reachable db -> reachable (snd (handle s r db)).

(** ** The quantities the specification speaks of *)

(** The entries of a stand that hold a slot: status Waiting or Active. *)
Definition holding (standId : Id) (e : QueueEntry.t) : bool :=
  match QueueEntry.StandQueueId e with
  | Some pk => Nat.eqb pk standId
  | None => false
  end
  && in_Waiting_Active (QueueEntry.status e).

Definition occupants (standId : Id) (db : DB) : Z :=
  Z.of_nat (List.length (filter (holding standId) (queueEntries db))).

(** Invariant 2 of the specification, for one database. *)
Definition occupancy_consistent (db : DB) : Prop :=
  forall s, In s (standQueues db) ->
            StandQueue.currentParticipants s = occupants (StandQueue.id s) db.

(** Invariant 1 of the specification, with the bound the model declares. *)
Definition capacity : Z := StandQueue.max.

Definition within_capacity (db : DB) : Prop :=
  forall s, In s (standQueues db) ->
            0 <= StandQueue.currentParticipants s <= capacity.

Definition totalProcessed_nonneg (db : DB) : Prop :=
  forall s, In s (standQueues db) -> 0 <= StandQueue.totalProcessed s.

Definition is_Uncomplete (r : Request) : bool :=
  match r with
  | Uncomplete _ => true
  | _ => false
  end.

(** A stand request that sets the count. *)
Definition sets_count (r : Request) : bool :=
  match r with
  | StandReq _ _ (Some _) => true
  | _ => false
  end.

(** What a request may do to an entry that exists: the key, the
    association keys and [joinedAt] stay, and the status stays, becomes
    Completed or becomes Active. *)
Definition same_entry (e e' : QueueEntry.t) : Prop :=
  QueueEntry.id e' = QueueEntry.id e /\
  QueueEntry.UserId e' = QueueEntry.UserId e /\
  QueueEntry.StandQueueId e' = QueueEntry.StandQueueId e /\
  QueueEntry.joinedAt e' = QueueEntry.joinedAt e.

Definition status_moves (a b : EntryStatus) : Prop :=
  b = a \/ b = Completed \/ b = Active.

Definition entries_kept (db db' : DB) : Prop :=
  forall e, In e (queueEntries db) ->
    exists e', In e' (queueEntries db') /\ same_entry e e' /\
               status_moves (QueueEntry.status e) (QueueEntry.status e').

(** Every stand counts at most [n] participants. *)
Definition count_at_most (n : Z) (db : DB) : Prop :=
  forall s, In s (standQueues db) -> StandQueue.currentParticipants s <= n.

(** ** The routes that create users, change roles or end sessions *)

Module AuthRoutes.

(** POST /api/auth/register, without middleware.  Only [username] and
    [password] are read from the body; [role] stands for a role field
    the client may have added. *)
Definition register (username password : string) (role : option string)
           (hashed : string * string) (db : UserDB) : Response * UserDB :=
  let role := Participant in
  match Auth.register username hashed role db with
  | inr (userId, db') => (json (UserIdBody userId), db')
  | inl message => (status_json 400 (ErrorBody message), db)
  end.

(** The guard [newRole !== 'Admin' && newRole !== 'Organizer'] of the
    change-role handler: the role a body string is accepted as. *)
Definition accepted_newRole (newRole : string) : option Role :=
  if String.eqb newRole "Admin" then Some Admin
  else if String.eqb newRole "Organizer" then Some Organizer
  else None.

(** PUT /api/auth/change-role, behind [authMiddleware] alone.  With
    [req.user] null the read of [req.user.role] throws inside the
    handler's [try]. *)
Definition change_role (userId : Id) (newRole : string)
           (s : Session) (db : UserDB) : Response * UserDB :=
  match sent s with
  | inl r => (r, db)
  | inr None => (status_json 500 (ExnBody TypeError), db)
  | inr (Some user) =>
      if negb (Role_eqb (User.role user) Admin) then
        (status_json 403 (ErrorBody "Unauthorized. Requires Admin role"),
         db)
      else
        match accepted_newRole newRole with
        | None =>
            (status_json 400
               (ErrorBody "Invalid role. Must be Admin or Organizer"), db)
        | Some newRole =>
            match Auth.changeUserRole userId newRole db with
            | inr db' =>
                (json (SuccessMessage "Role updated successfully"), db')
            | inl message => (status_json 500 (ErrorBody message), db)
            end
        end
  end.

Section Login.
Variable pbkdf2Sync : string -> string -> string.

(** POST /api/auth/login, without middleware. *)
Definition login (username password : string) (now now' : Z)
           (db : AuthDB) : Response * AuthDB :=
  match login pbkdf2Sync username password now now' db with
  | inr (session, user, db') =>
      (json (LoginBody (SessionRow.id session) user), db')
  | inl message => (status_json 401 (ErrorBody message), db)
  end.
End Login.

(** POST /api/auth/logout, behind [authMiddleware].  The session to
    destroy is named by the Authorization header, not by the cookie;
    without the header the where-clause holds [undefined] and Sequelize
    refuses it. *)
Definition logout (authorization : option SessionCookie)
           (s : Session) (db : AuthDB) : Response * AuthDB :=
  match sent s with
  | inl r => (r, db)
  | inr _ =>
      match authorization with
      | None => (status_json 500 (ExnBody QueryError), db)
      | Some Unreadable => (status_json 500 (ExnBody DatabaseError), db)
      | Some (Uuid sessionId) =>
          (json (SuccessMessage "Logged out successfully"),
           logout sessionId db)
      end
  end.

End AuthRoutes.

Module EnterpriseRoutes.

(** The [checkRole] this route file defines for itself.  It reads
    [req.user.role] without a test of [req.user]: with [req.user] null
    it throws, and the error handler of server.js answers. *)
Definition checkRole (roles : list Role) (req_user : option User.t)
  : Response + User.t :=
  match req_user with
  | None => inl (status_json 500 (ErrorBody "Something went wrong!"))
  | Some user =>
      if negb (includes roles (User.role user)) then
        inl (status_json 403
               (ErrorBody
                  ("Unauthorized. Requires one of the following roles: "
                   ++ String.concat ", " (map Role_name roles))))
      else inr user
  end.

(** POST /api/enterprise/create, Admin only.  The user account of the
    new enterprise is registered first; the handler then appends the
    enterprise to the contact sheet, a JSON file outside this model.
    [sheet] is what that second part threw, if anything: the account
    stays registered either way. *)
Definition create (username password : string)
           (hashed : string * string) (sheet : option Exn)
           (s : Session) (db : UserDB) : Response * UserDB :=
  match sent s with
  | inl r => (r, db)
  | inr req_user =>
      match checkRole [Admin] req_user with
      | inl r => (r, db)
      | inr _ =>
          match Auth.register username hashed Enterprise db with
          | inr (userId, db') =>
              match sheet with
              | None => (status_json 201 (UserIdBody userId), db')
              | Some e => (status_json 500 (ExnBody e), db')
              end
          | inl message => (status_json 500 (ErrorBody message), db)
          end
      end
  end.

End EnterpriseRoutes.

(** server.js, [startServer]: the default administrator. *)
Definition startServer (hashed : string * string) (db : UserDB) : UserDB :=
  match find (fun u => Role_eqb (User.role u) Admin) (users db) with
  | Some _ => db
  | None =>
      match Auth.register "admin" hashed Admin db with
      | inr (_, db') => db'
      | inl _ => db
      end
  end.

(** The routes that write the user table, from the end of
    [authMiddleware] on. *)
Inductive UserRequest :=
| Register (username password : string) (role : option string)
           (hashed : string * string)
| ChangeRole (userId : Id) (newRole : string)
| EnterpriseCreate (username password : string) (hashed : string * string)
                   (sheet : option Exn).

Definition handle_user (s : Session) (r : UserRequest) (db : UserDB)
  : Response * UserDB :=
  match r with
  | Register u p role h => AuthRoutes.register u p role h db
  | ChangeRole uid newRole => AuthRoutes.change_role uid newRole s db
  | EnterpriseCreate u p h sheet => EnterpriseRoutes.create u p h sheet s db
  end.

Fixpoint run_users (reqs : list (Session * UserRequest)) (db : UserDB)
  : UserDB :=
  match reqs with
  | [] => db
  | (s, r) :: rest => run_users rest (snd (handle_user s r db))
  end.

Definition no_Enterprise (db : UserDB) : Prop :=
  forall u, In u (users db) -> User.role u <> Enterprise.

(** Session keys in use were drawn from the counter, user keys are
    unique. *)
Definition auth_well_formed (db : AuthDB) : Prop :=
  (forall s, In s (sessions db) ->
             (SessionRow.id s < nextSessionId db)%nat) /\
  NoDup (map User.id (users (userDB db))).

(** The user tables the user routes keep: unique names and keys, keys
    drawn from the counter. *)
Definition users_well_formed (db : UserDB) : Prop :=
  NoDup (map User.username (users db)) /\
  NoDup (map User.id (users db)) /\
  (forall u, In u (users db) -> (User.id u < nextUserId db)%nat).

(** ** The server: every route with its middleware *)

(** The tables of the server. *)
Record Server := mkServer {
  authDB : AuthDB;
  queueDB : DB
}.

Definition with_users (u : UserDB) (a : AuthDB) : AuthDB :=
  mkAuthDB u (sessions a) (nextSessionId a).

(** A call of the API: the [sessionId] cookie where the route reads
    it, the clock readings, and the request data.  [salt] is the salt
    [Auth.hashPassword] draws. *)
Inductive Call :=
| PostRegister (username password : string) (role : option string)
               (salt : string)
| PostLogin (username password : string) (now now' : Z)
| PostLogout (cookie : option SessionCookie) (now : Z)
             (authorization : option SessionCookie)
| PutChangeRole (cookie : option SessionCookie) (now : Z)
                (userId : Id) (newRole : string)
| PostEnterpriseCreate (cookie : option SessionCookie) (now : Z)
                       (username password salt : string)
                       (sheet : option Exn)
| QueueCall (cookie : option SessionCookie) (now : Z) (r : Request).

Section Api.

Variable pbkdf2Sync : string -> string -> string.

Definition serve (c : Call) (sv : Server) : Response * Server :=
  match c with
  | PostRegister username password role salt =>
      let (resp, users') :=
        AuthRoutes.register username password role
          (hashPassword pbkdf2Sync salt password) (userDB (authDB sv)) in
      (resp, mkServer (with_users users' (authDB sv)) (queueDB sv))
  | PostLogin username password now now' =>
      let (resp, auth') :=
        AuthRoutes.login pbkdf2Sync username password now now'
                         (authDB sv) in
      (resp, mkServer auth' (queueDB sv))
  | PostLogout cookie now authorization =>
      let (s, auth1) := authMiddleware cookie now (authDB sv) in
      let (resp, auth') := AuthRoutes.logout authorization s auth1 in
      (resp, mkServer auth' (queueDB sv))
  | PutChangeRole cookie now userId newRole =>
      let (s, auth1) := authMiddleware cookie now (authDB sv) in
      let (resp, users') :=
        AuthRoutes.change_role userId newRole s (userDB auth1) in
      (resp, mkServer (with_users users' auth1) (queueDB sv))
  | PostEnterpriseCreate cookie now username password salt sheet =>
      let (s, auth1) := authMiddleware cookie now (authDB sv) in
      let (resp, users') :=
        EnterpriseRoutes.create username password
          (hashPassword pbkdf2Sync salt password) sheet s (userDB auth1) in
      (resp, mkServer (with_users users' auth1) (queueDB sv))
  | QueueCall cookie now r =>
      let (s, auth1) := authMiddleware cookie now (authDB sv) in
      let (resp, queues') := handle s r (queueDB sv) in
      (resp, mkServer auth1 queues')
  end.

(** The server after a sequence of calls, oldest first. *)
Fixpoint run_calls (calls : list Call) (sv : Server) : Server :=
  match calls with
  | [] => sv
  | c :: rest => run_calls rest (snd (serve c sv))
  end.

End Api.

(** The server when it starts on empty tables: [startServer] has
    registered the default administrator. *)
Definition started_server (hashed : string * string) : Server :=
  mkServer (mkAuthDB (startServer hashed (mkUserDB [] 0%nat)) [] 0%nat)
           emptyDB.

(** No session row carries the key an [include: User] joins on. *)
Definition no_UserId (db : AuthDB) : Prop :=
  forall s, In s (sessions db) -> SessionRow.UserId s = None.
(** ** apis/authMiddleware.js: reading the [sessionId] cookie *)

(** [s.split(separator)] for a separator that is not empty: the pieces
    between the occurrences of the separator, found from the left and
    not overlapping.  [skip] counts the characters of a separator that
    are still to be passed over, [piece] is the piece read so far. *)
Fixpoint split_from (separator : string) (skip : nat) (piece : string)
         (s : string) : list string :=
  match s with
  | EmptyString => [piece]
  | String c s' =>
      match skip with
      | S k => split_from separator k piece s'
      | O =>
          if String.prefix separator s
          then piece :: split_from separator
                          (Nat.pred (String.length separator))
                          EmptyString s'
          else split_from separator 0
                          (piece ++ String c EmptyString) s'
      end
  end.

Definition split (separator s : string) : list string :=
  split_from separator 0 EmptyString s.

(** [s.startsWith(searchString)] *)
Definition startsWith (s searchString : string) : bool :=
  String.prefix searchString s.

(** [req.headers.cookie?.split('; ')
      .find(row => row.startsWith('sessionId='))?.split('=')[1]];
    [None] is [undefined]. *)
Definition sessionId_of_header (cookie : option string) : option string :=
  match cookie with
  | None => None
  | Some header =>
      match find (fun row => startsWith row "sessionId=")
                 (split "; " header) with
      | None => None
      | Some row => nth_error (split "=" row) 1
      end
  end.

(** The first step of [authMiddleware]: the session id, or the 401 of
    [if (!sessionId)], taken for [undefined] and for the empty string. *)
Definition read_sessionId (cookie : option string) : Response + string :=
  match sessionId_of_header cookie with
  | None => inl (status_json 401 (ErrorBody "No session provided"))
  | Some sessionId =>
      if String.eqb sessionId ""
      then inl (status_json 401 (ErrorBody "No session provided"))
      else inr sessionId
  end.

(** The character does not occur in the string. *)
Fixpoint free_of (c : Ascii.ascii) (s : string) : bool :=
  match s with
  | EmptyString => true
  | String x s' => negb (Ascii.eqb x c) && free_of c s'
  end.

(** The Cookie header a client sends for a list of (name, value)
    pairs: [name=value] joined by "; ". *)
Definition cookie_header (cookies : list (string * string)) : string :=
  String.concat "; "
    (map (fun nv => (fst nv ++ "=" ++ snd nv)%string) cookies).

(** Names and values without ';' and '='. *)
Definition plain_cookie (nv : string * string) : bool :=
  free_of ";"%char (fst nv) && free_of "="%char (fst nv)
  && free_of ";"%char (snd nv) && free_of "="%char (snd nv).


(** ** Sample data *)

(** The user table after [startServer] on an empty database, and the
    administrator it holds. *)
Definition admin0 : User.t :=
  User.mk 0%nat "admin" "hash0" "salt0" Admin.

Definition started : UserDB :=
  startServer ("hash0", "salt0")%string (mkUserDB [] 0%nat).

(** Principals of the queue routes. *)
Definition organizer : User.t :=
  User.mk 1%nat "orga" "hash1" "salt1" Organizer.
Definition alice : User.t :=
  User.mk 10%nat "alice" "hash10" "salt10" Participant.
Definition bob : User.t :=
  User.mk 11%nat "bob" "hash11" "salt11" Participant.

(** A database in which Alice holds a slot on the stand of "acme": the
    stand (key 0) counts one participant, and one entry (key 1) with
    status Active carries Alice's key and the stand's key in its
    association columns. *)
Definition db_alice_active : DB :=
  mkDB [StandQueue.mk 0%nat "acme" Open 1 0]
       [QueueEntry.mk 1%nat Active 100 None None (Some 10%nat) (Some 0%nat)]
       2%nat.

(** The same database after an organizer's [complete] of entry 1 at
    time 200. *)
Definition db_alice_completed : DB :=
  snd (QueuesRoutes.complete_handler 1%nat 200 db_alice_active).

(** As [db_alice_active], with Alice's entry Waiting and not counted by
    the stand. *)
Definition db_alice_waiting : DB :=
  mkDB [StandQueue.mk 0%nat "acme" Open 0 0]
       [QueueEntry.mk 1%nat Waiting 100 None None (Some 10%nat) (Some 0%nat)]
       2%nat.

(** The organizer set the stand of "acme" (stand 0) to one participant
    through POST /api/queues/stand. *)
Definition db_one_below : DB :=
  run [(ValidSession (Some organizer), StandReq "acme" None (Some 1))]
      emptyDB.

(** The organizer closed the stand of "acme" (stand 0, count 0). *)
Definition db_closed : DB :=
  run [(ValidSession (Some organizer), StandReq "acme" (Some Closed) None)]
      emptyDB.

(** The organizer opened three stands (keys 0, 1 and 2). *)
Definition db_three_stands : DB :=
  run [(ValidSession (Some organizer), StandReq "acme" None None);
       (ValidSession (Some organizer), StandReq "globex" None None);
       (ValidSession (Some organizer), StandReq "initech" None None)]
      emptyDB.

(** Three stands, on two of which Alice holds a Waiting entry. *)
Definition db_two_held : DB :=
  mkDB (standQueues db_three_stands)
       [QueueEntry.mk 3%nat Waiting 100 None None (Some 10%nat) (Some 0%nat);
        QueueEntry.mk 4%nat Waiting 101 None None (Some 10%nat) (Some 1%nat)]
       5%nat.

(** The organizer set the stand of "acme" to Full with four
    participants. *)
Definition db_at_maximum : DB :=
  run [(ValidSession (Some organizer), StandReq "acme" (Some Full) (Some 4))]
      emptyDB.

(** A stand-in for the key derivation, for the sample data only. *)
Definition sample_pbkdf2 (password salt : string) : string :=
  (salt ++ "$" ++ password)%string.

(** A user table where Dana registered with password "pw" and salt
    "s9", with one older session of hers, as [login] created it, that
    expires at 5000. *)
Definition auth_sample : AuthDB :=
  mkAuthDB
    (mkUserDB [User.mk 0%nat "admin" "hash0" "salt0" Admin;
               User.mk 1%nat "dana" "s9$pw" "s9" Participant] 2%nat)
    [SessionRow.mk 0%nat 1%nat None 5000]
    1%nat.

(** The server after start-up, the registration of Dana and her login
    at time 100. *)
Definition server_sample : Server :=
  run_calls sample_pbkdf2
    [PostRegister "dana" "pw" None "s9";
     PostLogin "dana" "pw" 100 100]
    (started_server ("hash0", "salt0")%string).

(** The users of the queue routes with a session each (keys 7 and 8,
    expiring at 5000).  In [auth_logged_in] the sessions are as
    [Auth.login] creates them, with the user's key under [userId] only;
    in [auth_linked] the rows also carry it under [UserId], the key
    [authMiddleware] joins the user on. *)
Definition auth_logged_in : AuthDB :=
  mkAuthDB (mkUserDB [organizer; alice; bob] 12%nat)
           [SessionRow.mk 7%nat 1%nat None 5000;
            SessionRow.mk 8%nat 10%nat None 5000]
           9%nat.

Definition auth_linked : AuthDB :=
  mkAuthDB (mkUserDB [organizer; alice; bob] 12%nat)
           [SessionRow.mk 7%nat 1%nat (Some 1%nat) 5000;
            SessionRow.mk 8%nat 10%nat (Some 10%nat) 5000]
           9%nat.

(* end of sample data *)


(** * Properties *)

(** ** Rows, lookups and updates *)

Section Rows.

Context {A : Type} (key : A -> Id).

(** Looking a primary key up after an instance was written back. *)
Lemma find_write (pk : Id) (x' : A) (l : list A) :
  find (fun x => Nat.eqb (key x) pk)
       (map (fun x => if Nat.eqb (key x) (key x') then x' else x) l)
  = if Nat.eqb (key x') pk
    then match find (fun x => Nat.eqb (key x) pk) l with
         | Some _ => Some x'
         | None => None
         end
    else find (fun x => Nat.eqb (key x) pk) l.
Proof.
  induction l as [| x l IH]; simpl.
  - now destruct (Nat.eqb (key x') pk).
  - destruct (Nat.eqb (key x) (key x')) eqn:Hx.
    + apply Nat.eqb_eq in Hx. rewrite Hx.
      destruct (Nat.eqb (key x') pk) eqn:Hpk; [reflexivity |].
      exact IH.
    + destruct (Nat.eqb (key x) pk) eqn:Hk.
      * apply Nat.eqb_eq in Hk. subst pk. rewrite Nat.eqb_sym, Hx.
        reflexivity.
      * exact IH.
Qed.

Lemma find_key_sound (pk : Id) (l : list A) (x : A) :
  find (fun x => Nat.eqb (key x) pk) l = Some x -> key x = pk /\ In x l.
Proof.
  intros H. apply find_some in H. destruct H as [Hin Hk].
  apply Nat.eqb_eq in Hk. now split.
Qed.

(** Rows with unique keys are told apart by their key. *)
Lemma NoDup_key_eq (l : list A) (x y : A) :
  NoDup (map key l) -> In x l -> In y l -> key x = key y -> x = y.
Proof.
  induction l as [| a l IH]; simpl; intros Hnd Hx Hy Hk; [easy |].
  inversion Hnd as [| ? ? Hout Hnd']. subst.
  destruct Hx as [-> | Hx], Hy as [-> | Hy]; trivial.
  - exfalso. apply Hout. rewrite Hk. now apply in_map.
  - exfalso. apply Hout. rewrite <- Hk. now apply in_map.
  - now apply IH.
Qed.

(** Writing an instance back moves no key. *)
Lemma map_write_keys (x' : A) (l : list A) :
  map key (map (fun x => if Nat.eqb (key x) (key x') then x' else x) l)
  = map key l.
Proof.
  induction l as [| x l IH]; simpl; [reflexivity |].
  rewrite IH. destruct (Nat.eqb (key x) (key x')) eqn:Hx; [| reflexivity].
  apply Nat.eqb_eq in Hx. now rewrite Hx.
Qed.

End Rows.

Lemma find_app_last {A : Type} (p : A -> bool) (l : list A) (e : A) :
  (forall x, In x l -> p x = false) -> p e = true ->
  find p (l ++ [e]) = Some e.
Proof.
  intros Hl He. induction l as [| x l IH]; simpl.
  - now rewrite He.
  - rewrite (Hl x (or_introl eq_refl)). apply IH.
    intros y Hy. apply Hl. now right.
Qed.

Section Lookups.

Import Orm.

Lemma findByPk_QueueEntry_id pk db e :
  findByPk_QueueEntry pk db = Some e -> QueueEntry.id e = pk.
Proof. intros H. now apply (find_key_sound QueueEntry.id) in H. Qed.

(** An entry that exists reads back as the instance that was written. *)
Lemma findByPk_QueueEntry_updated e e' db :
  findByPk_QueueEntry (QueueEntry.id e') db = Some e ->
  findByPk_QueueEntry (QueueEntry.id e') (update_QueueEntry e' db) = Some e'.
Proof.
  intros H. unfold findByPk_QueueEntry, update_QueueEntry in *. simpl.
  rewrite (find_write QueueEntry.id), Nat.eqb_refl, H. reflexivity.
Qed.

(** Every other key reads back as before. *)
Lemma findByPk_QueueEntry_other pk e' db :
  pk <> QueueEntry.id e' ->
  findByPk_QueueEntry pk (update_QueueEntry e' db)
  = findByPk_QueueEntry pk db.
Proof.
  intros H. unfold findByPk_QueueEntry, update_QueueEntry. simpl.
  rewrite (find_write QueueEntry.id).
  destruct (Nat.eqb (QueueEntry.id e') pk) eqn:Hk; [| reflexivity].
  apply Nat.eqb_eq in Hk. congruence.
Qed.

Lemma validate_range s :
  StandQueue.validate s = true <->
  0 <= StandQueue.currentParticipants s <= 4.
Proof.
  unfold StandQueue.validate, StandQueue.min, StandQueue.max.
  rewrite andb_true_iff, !Z.leb_le. reflexivity.
Qed.

Lemma findOne_StandQueue_sound enterpriseId db s :
  findOne_StandQueue enterpriseId db = Some s ->
  In s (standQueues db) /\ StandQueue.enterpriseId s = enterpriseId.
Proof.
  intros H. apply find_some in H. destruct H as [Hin He].
  apply String.eqb_eq in He. now split.
Qed.

(** The stand of an enterprise reads back as the instance written. *)
Lemma findOne_StandQueue_saved enterpriseId db s s' :
  findOne_StandQueue enterpriseId db = Some s ->
  StandQueue.id s' = StandQueue.id s ->
  StandQueue.enterpriseId s' = enterpriseId ->
  findOne_StandQueue enterpriseId (save_StandQueue s' db) = Some s'.
Proof.
  unfold findOne_StandQueue, save_StandQueue. simpl.
  intros Hf Hid He. induction (standQueues db) as [| x l IH];
    simpl in *; [discriminate |].
  destruct (Nat.eqb (StandQueue.id x) (StandQueue.id s')) eqn:Hx.
  - now rewrite He, String.eqb_refl.
  - destruct (String.eqb (StandQueue.enterpriseId x) enterpriseId).
    + injection Hf as ->. rewrite Hid, Nat.eqb_refl in Hx. discriminate.
    + now apply IH.
Qed.

(** What [create] answers, by cases. *)
Lemma create_StandQueue_cases enterpriseId status cp db :
  (exists e, create_StandQueue enterpriseId status cp db = inl e) \/
  (0 <= cp <= 4 /\
   create_StandQueue enterpriseId status cp db
   = inr (StandQueue.mk (nextId db) enterpriseId status cp 0,
          mkDB (standQueues db
                ++ [StandQueue.mk (nextId db) enterpriseId status cp 0])
               (queueEntries db) (S (nextId db)))).
Proof.
  unfold create_StandQueue.
  destruct (StandQueue.validate _) eqn:Hv; [| left; now eexists].
  destruct (StandQueue.fits _); [| left; now eexists].
  right. split; [| reflexivity]. now apply validate_range in Hv.
Qed.

End Lookups.

(** ** The handlers as they run *)

Section AsTheyRun.

Import Orm.

(** The where-clause of the bulk-queue join names [userId], which is no
    column of the entry table: the count throws. *)
Lemma queues_join_handler_throws enterpriseId now user db :
  QueuesRoutes.join_handler enterpriseId now user db
  = (status_json 500 (ExnBody DatabaseError), db).
Proof. reflexivity. Qed.

Lemma enterprise_join_handler_throws enterpriseId now user db :
  EnterpriseQueueRoutes.join_handler enterpriseId now user db
  = (status_json 500 (ExnBody DatabaseError), db).
Proof. reflexivity. Qed.

Lemma leave_handler_throws enterpriseId user db :
  EnterpriseQueueRoutes.leave_handler enterpriseId user db
  = (status_json 500 (ExnBody DatabaseError), db).
Proof. reflexivity. Qed.

(** [entry.standQueueId] is [undefined], [findByPk] gives null, and the
    handler fails on [standQueue.update] after it wrote the entry. *)
Lemma complete_handler_found queueId now db entry :
  findByPk_QueueEntry queueId db = Some entry ->
  QueuesRoutes.complete_handler queueId now db
  = (status_json 500 (ExnBody TypeError),
     update_QueueEntry
       (QueueEntry.mk (QueueEntry.id entry) Completed
          (QueueEntry.joinedAt entry) (QueueEntry.startedAt entry)
          (Some now)
          (QueueEntry.UserId entry) (QueueEntry.StandQueueId entry))
       db).
Proof.
  intros H. unfold QueuesRoutes.complete_handler. now rewrite H.
Qed.

Lemma complete_handler_absent queueId now db :
  findByPk_QueueEntry queueId db = None ->
  QueuesRoutes.complete_handler queueId now db
  = (status_json 404 (ErrorBody "Queue entry not found"), db).
Proof.
  intros H. unfold QueuesRoutes.complete_handler. now rewrite H.
Qed.

Lemma uncomplete_handler_found queueId db entry :
  findByPk_QueueEntry queueId db = Some entry ->
  QueuesRoutes.uncomplete_handler queueId db
  = (status_json 500 (ExnBody TypeError),
     update_QueueEntry
       (QueueEntry.mk (QueueEntry.id entry) Active
          (QueueEntry.joinedAt entry) (QueueEntry.startedAt entry)
          None
          (QueueEntry.UserId entry) (QueueEntry.StandQueueId entry))
       db).
Proof.
  intros H. unfold QueuesRoutes.uncomplete_handler. now rewrite H.
Qed.

Lemma uncomplete_handler_absent queueId db :
  findByPk_QueueEntry queueId db = None ->
  QueuesRoutes.uncomplete_handler queueId db
  = (status_json 404 (ErrorBody "Queue entry not found"), db).
Proof.
  intros H. unfold QueuesRoutes.uncomplete_handler. now rewrite H.
Qed.

(** The stand table after [complete] and after [uncomplete]. *)
Lemma complete_handler_stands queueId now db :
  standQueues (snd (QueuesRoutes.complete_handler queueId now db))
  = standQueues db.
Proof.
  destruct (findByPk_QueueEntry queueId db) as [entry |] eqn:H.
  - now rewrite (complete_handler_found _ _ _ _ H).
  - now rewrite (complete_handler_absent _ _ _ H).
Qed.

Lemma uncomplete_handler_stands queueId db :
  standQueues (snd (QueuesRoutes.uncomplete_handler queueId db))
  = standQueues db.
Proof.
  destruct (findByPk_QueueEntry queueId db) as [entry |] eqn:H.
  - now rewrite (uncomplete_handler_found _ _ _ H).
  - now rewrite (uncomplete_handler_absent _ _ H).
Qed.

(** The entry table after a stand request. *)
Lemma stand_handler_entries enterpriseId status cp db :
  queueEntries (snd (QueuesRoutes.stand_handler enterpriseId status cp db))
  = queueEntries db.
Proof.
  unfold QueuesRoutes.stand_handler.
  destruct (findOne_StandQueue enterpriseId db) as [standQueue |].
  - destruct cp as [v |]; [| reflexivity].
    unfold update_StandQueue. now destruct (StandQueue.validate _).
  - destruct (create_StandQueue_cases enterpriseId
                (match status with Some v => v | None => Open end)
                (match cp with Some v => v | None => 0 end) db)
      as [[e ->] | [_ ->]]; reflexivity.
Qed.

(** A guarded route either answers 401 or 403 and leaves the state
    alone, or runs its handler for the user of the request. *)
Lemma guarded_cases {A : Type} roles
      (handler : User.t -> A -> Response * A) s st :
  (exists resp, guarded roles handler s st = (resp, st) /\
                (statusCode resp = 401 \/ statusCode resp = 403)) \/
  (exists user, s = ValidSession (Some user) /\
                guarded roles handler s st = handler user st).
Proof.
  unfold guarded.
  destruct s as [ | | | | [user |]]; simpl;
    try (left; eexists; split; [reflexivity | now left]).
  destruct roles as [roles | role]; simpl.
  - destruct (includes roles (User.role user)).
    + right. now exists user.
    + left. eexists. split; [reflexivity | now right].
  - destruct (Role_eqb (User.role user) role).
    + right. now exists user.
    + left. eexists. split; [reflexivity | now right].
Qed.

Lemma guarded_preserves {A : Type} (P : A -> Prop) roles handler s st :
  (forall user, P st -> P (snd (handler user st))) ->
  P st -> P (snd (@guarded A roles handler s st)).
Proof.
  intros Hh Hst.
  destruct (guarded_cases roles handler s st)
    as [[resp [-> _]] | [user [_ ->]]]; [exact Hst | now apply Hh].
Qed.

(** Only a stand request writes the stand table. *)
Lemma handle_stands s r db :
  (forall e st cp, r <> StandReq e st cp) ->
  standQueues (snd (handle s r db)) = standQueues db.
Proof.
  intros Hr.
  destruct r as [e st cp | e now | q now | q | e now | e];
    [now destruct (Hr e st cp) | | | | |];
    cbn [handle];
    unfold QueuesRoutes.join, QueuesRoutes.complete,
      QueuesRoutes.uncomplete, EnterpriseQueueRoutes.join,
      EnterpriseQueueRoutes.leave;
    apply (guarded_preserves (fun d => standQueues d = standQueues db));
    try reflexivity; intros user _;
    first [ apply complete_handler_stands
          | apply uncomplete_handler_stands
          | reflexivity ].
Qed.

End AsTheyRun.

(** ** The count stays within the validated range *)

Section WithinCapacity.

Import Orm.

Lemma within_capacity_same_stands db db' :
  standQueues db' = standQueues db ->
  within_capacity db -> within_capacity db'.
Proof. unfold within_capacity. intros ->. trivial. Qed.

Lemma within_capacity_save s' db :
  0 <= StandQueue.currentParticipants s' <= capacity ->
  within_capacity db -> within_capacity (save_StandQueue s' db).
Proof.
  intros Hs' Hdb s Hs. simpl in Hs. apply in_map_iff in Hs.
  destruct Hs as [s0 [Heq Hin]].
  destruct (Nat.eqb _ _) in Heq; subst s; [exact Hs' | now apply Hdb].
Qed.

Lemma within_capacity_update s' db db' :
  update_StandQueue s' db = inr db' ->
  within_capacity db -> within_capacity db'.
Proof.
  unfold update_StandQueue.
  destruct (StandQueue.validate s') eqn:Hv; [| discriminate].
  intros [= <-]. apply within_capacity_save.
  now apply validate_range in Hv.
Qed.

Lemma within_capacity_create enterpriseId status cp db s db' :
  create_StandQueue enterpriseId status cp db = inr (s, db') ->
  within_capacity db -> within_capacity db'.
Proof.
  destruct (create_StandQueue_cases enterpriseId status cp db)
    as [[e ->] | [Hcp ->]]; [discriminate |].
  intros [= <- <-] Hdb s0 Hs. simpl in Hs. apply in_app_or in Hs.
  destruct Hs as [Hs | [<- | []]]; [now apply Hdb | exact Hcp].
Qed.

Lemma stand_handler_within_capacity enterpriseId status cp db :
  within_capacity db ->
  within_capacity
    (snd (QueuesRoutes.stand_handler enterpriseId status cp db)).
Proof.
  intros Hdb. unfold QueuesRoutes.stand_handler.
  destruct (findOne_StandQueue enterpriseId db) as [standQueue |] eqn:Hf.
  - destruct cp as [v |].
    + destruct (update_StandQueue _ db) as [e | db'] eqn:Hu;
        [exact Hdb |].
      simpl. now apply within_capacity_update in Hu.
    + simpl. apply within_capacity_save; [| exact Hdb].
      simpl. apply Hdb. apply find_some in Hf. tauto.
  - destruct (create_StandQueue _ _ _ db) as [e | [s db']] eqn:Hc;
      [exact Hdb |].
    simpl. now apply within_capacity_create in Hc.
Qed.

(** Every request keeps the counts within the validated range. *)
Lemma handle_within_capacity s r db :
  within_capacity db -> within_capacity (snd (handle s r db)).
Proof.
  intros Hdb.
  destruct r as [e st cp | e now | q now | q | e now | e].
  - cbn [handle]. unfold QueuesRoutes.stand.
    apply (guarded_preserves within_capacity); trivial.
    intros user _. now apply stand_handler_within_capacity.
  - apply (within_capacity_same_stands db); [| exact Hdb].
    now apply handle_stands.
  - apply (within_capacity_same_stands db); [| exact Hdb].
    now apply handle_stands.
  - apply (within_capacity_same_stands db); [| exact Hdb].
    now apply handle_stands.
  - apply (within_capacity_same_stands db); [| exact Hdb].
    now apply handle_stands.
  - apply (within_capacity_same_stands db); [| exact Hdb].
    now apply handle_stands.
Qed.

Lemma reachable_run reqs : forall db, reachable db -> reachable (run reqs db).
Proof.
  induction reqs as [| [s r] rest IH]; intros db Hdb; simpl;
    [exact Hdb |].
  apply IH. now apply reachable_step.
Qed.

End WithinCapacity.

(** C2.  In every state reachable from the empty database through the
    queue routes (stand, both joins, leave, complete, uncomplete), every
    stand has 0 <= currentParticipants <= capacity, the capacity being
    the maximum the StandQueue model declares; no request, uncomplete
    included, stores a count above it. *)
Theorem C2_reachable_within_capacity :
  forall db, reachable db ->
  forall standQueue, In standQueue (standQueues db) ->
    0 <= StandQueue.currentParticipants standQueue <= capacity.
Proof.
  intros db Hdb. change (within_capacity db).
  induction Hdb as [| db s r _ IH].
  - intros s [].
  - now apply handle_within_capacity.
Qed.

Lemma C2_witness :
  0 <= 4 <= capacity.
Proof.
  apply (C2_reachable_within_capacity
           (snd (handle (ValidSession (Some organizer)) (Uncomplete 1%nat)
                        db_at_maximum))
           (reachable_step _ _ _ (reachable_run _ _ reachable_empty))
           (StandQueue.mk 0%nat "acme" Full 4 0)).
  left. reflexivity.
Defined.

(** ** complete and uncomplete *)

Section CompleteUncomplete.

Import Orm.

(** The entry after [complete], and every other entry. *)
Lemma complete_reads_back queueId now db entry :
  findByPk_QueueEntry queueId db = Some entry ->
  findByPk_QueueEntry queueId
    (snd (QueuesRoutes.complete_handler queueId now db))
  = Some (QueueEntry.mk queueId Completed
            (QueueEntry.joinedAt entry) (QueueEntry.startedAt entry)
            (Some now)
            (QueueEntry.UserId entry) (QueueEntry.StandQueueId entry)).
Proof.
  intros H. rewrite (complete_handler_found _ _ _ _ H). simpl snd.
  pose proof (findByPk_QueueEntry_id _ _ _ H) as Hid. subst queueId.
  now apply (findByPk_QueueEntry_updated entry
               (QueueEntry.mk (QueueEntry.id entry) Completed
                  (QueueEntry.joinedAt entry) (QueueEntry.startedAt entry)
                  (Some now) (QueueEntry.UserId entry)
                  (QueueEntry.StandQueueId entry))).
Qed.

Lemma complete_keeps_others queueId now db other :
  other <> queueId ->
  findByPk_QueueEntry other
    (snd (QueuesRoutes.complete_handler queueId now db))
  = findByPk_QueueEntry other db.
Proof.
  intros Hne.
  destruct (findByPk_QueueEntry queueId db) as [entry |] eqn:H.
  - rewrite (complete_handler_found _ _ _ _ H). simpl snd.
    apply findByPk_QueueEntry_other. simpl.
    rewrite (findByPk_QueueEntry_id _ _ _ H). exact Hne.
  - now rewrite (complete_handler_absent _ _ _ H).
Qed.

(** The entry after [uncomplete], and every other entry. *)
Lemma uncomplete_reads_back queueId db entry :
  findByPk_QueueEntry queueId db = Some entry ->
  findByPk_QueueEntry queueId
    (snd (QueuesRoutes.uncomplete_handler queueId db))
  = Some (QueueEntry.mk queueId Active
            (QueueEntry.joinedAt entry) (QueueEntry.startedAt entry)
            None
            (QueueEntry.UserId entry) (QueueEntry.StandQueueId entry)).
Proof.
  intros H. rewrite (uncomplete_handler_found _ _ _ H). simpl snd.
  pose proof (findByPk_QueueEntry_id _ _ _ H) as Hid. subst queueId.
  now apply (findByPk_QueueEntry_updated entry
               (QueueEntry.mk (QueueEntry.id entry) Active
                  (QueueEntry.joinedAt entry) (QueueEntry.startedAt entry)
                  None (QueueEntry.UserId entry)
                  (QueueEntry.StandQueueId entry))).
Qed.

Lemma uncomplete_keeps_others queueId db other :
  other <> queueId ->
  findByPk_QueueEntry other
    (snd (QueuesRoutes.uncomplete_handler queueId db))
  = findByPk_QueueEntry other db.
Proof.
  intros Hne.
  destruct (findByPk_QueueEntry queueId db) as [entry |] eqn:H.
  - rewrite (uncomplete_handler_found _ _ _ H). simpl snd.
    apply findByPk_QueueEntry_other. simpl.
    rewrite (findByPk_QueueEntry_id _ _ _ H). exact Hne.
  - now rewrite (uncomplete_handler_absent _ _ H).
Qed.

End CompleteUncomplete.

(** C3 (as amended).  [complete] answers 404 'Queue entry not found'
    and changes nothing when the entry is absent.  It has no
    InvalidState rejection: when the entry exists, whatever its status,
    the handler marks it Completed and sets completedAt to the time of
    the call, and it changes no other entry. *)
Theorem C3_complete_effects :
  forall (queueId : Id) (now : Z) (db : DB),
    match Orm.findByPk_QueueEntry queueId db with
    | None =>
        QueuesRoutes.complete_handler queueId now db
        = (status_json 404 (ErrorBody "Queue entry not found"), db)
    | Some entry =>
        Orm.findByPk_QueueEntry queueId
          (snd (QueuesRoutes.complete_handler queueId now db))
        = Some (QueueEntry.mk queueId Completed
                  (QueueEntry.joinedAt entry) (QueueEntry.startedAt entry)
                  (Some now)
                  (QueueEntry.UserId entry) (QueueEntry.StandQueueId entry))
        /\
        forall other, other <> queueId ->
          Orm.findByPk_QueueEntry other
            (snd (QueuesRoutes.complete_handler queueId now db))
          = Orm.findByPk_QueueEntry other db
    end.
Proof.
  intros queueId now db.
  destruct (Orm.findByPk_QueueEntry queueId db) as [entry |] eqn:H.
  - split.
    + now apply complete_reads_back.
    + intros other Hne. now apply complete_keeps_others.
  - now apply complete_handler_absent.
Qed.

Lemma C3_witness :
  Orm.findByPk_QueueEntry 1%nat
    (snd (QueuesRoutes.complete_handler 1%nat 200 db_alice_active))
  = Some (QueueEntry.mk 1%nat Completed 100 None (Some 200)
            (Some 10%nat) (Some 0%nat)).
Proof.
  exact (proj1 (C3_complete_effects 1%nat 200 db_alice_active)).
Defined.

(** C3 as stated fails: entry 1 is Completed, the organizer completes
    it once more, and instead of an InvalidState rejection that changes
    nothing the handler rewrites completedAt (and then fails on the
    stand). *)
Lemma C3_counterexample :
  Orm.findByPk_QueueEntry 1%nat db_alice_completed
  = Some (QueueEntry.mk 1%nat Completed 100 None (Some 200)
            (Some 10%nat) (Some 0%nat)) /\
  QueuesRoutes.complete 1%nat 300 (ValidSession (Some organizer))
                        db_alice_completed
  = (status_json 500 (ExnBody TypeError),
     mkDB [StandQueue.mk 0%nat "acme" Open 1 0]
          [QueueEntry.mk 1%nat Completed 100 None (Some 300)
                         (Some 10%nat) (Some 0%nat)]
          2%nat) /\
  snd (QueuesRoutes.complete 1%nat 300 (ValidSession (Some organizer))
                             db_alice_completed)
  <> db_alice_completed.
Proof.
  split; [reflexivity |]. split; [reflexivity |]. discriminate.
Qed.

(** C4 (as amended).  [uncomplete] answers 404 'Queue entry not found'
    and changes nothing when the entry is absent.  It has no
    InvalidState rejection: when the entry exists, whatever its status,
    the handler sets it to Active and clears completedAt, and it changes
    no other entry. *)
Theorem C4_uncomplete_effects :
  forall (queueId : Id) (db : DB),
    match Orm.findByPk_QueueEntry queueId db with
    | None =>
        QueuesRoutes.uncomplete_handler queueId db
        = (status_json 404 (ErrorBody "Queue entry not found"), db)
    | Some entry =>
        Orm.findByPk_QueueEntry queueId
          (snd (QueuesRoutes.uncomplete_handler queueId db))
        = Some (QueueEntry.mk queueId Active
                  (QueueEntry.joinedAt entry) (QueueEntry.startedAt entry)
                  None
                  (QueueEntry.UserId entry) (QueueEntry.StandQueueId entry))
        /\
        forall other, other <> queueId ->
          Orm.findByPk_QueueEntry other
            (snd (QueuesRoutes.uncomplete_handler queueId db))
          = Orm.findByPk_QueueEntry other db
    end.
Proof.
  intros queueId db.
  destruct (Orm.findByPk_QueueEntry queueId db) as [entry |] eqn:H.
  - split.
    + now apply uncomplete_reads_back.
    + intros other Hne. now apply uncomplete_keeps_others.
  - now apply uncomplete_handler_absent.
Qed.

Lemma C4_witness :
  Orm.findByPk_QueueEntry 1%nat
    (snd (QueuesRoutes.uncomplete_handler 1%nat db_alice_completed))
  = Some (QueueEntry.mk 1%nat Active 100 None None
            (Some 10%nat) (Some 0%nat)).
Proof.
  exact (proj1 (C4_uncomplete_effects 1%nat db_alice_completed)).
Defined.

(** C4 as stated fails: entry 1 is Waiting, not Completed; [uncomplete]
    is not refused with InvalidState but sets the entry to Active (and
    then fails on the stand). *)
Lemma C4_counterexample :
  Orm.findByPk_QueueEntry 1%nat db_alice_waiting
  = Some (QueueEntry.mk 1%nat Waiting 100 None None
            (Some 10%nat) (Some 0%nat)) /\
  QueuesRoutes.uncomplete 1%nat (ValidSession (Some organizer))
                          db_alice_waiting
  = (status_json 500 (ExnBody TypeError),
     mkDB [StandQueue.mk 0%nat "acme" Open 0 0]
          [QueueEntry.mk 1%nat Active 100 None None
                         (Some 10%nat) (Some 0%nat)]
          2%nat).
Proof.
  split; reflexivity.
Qed.

(** C9.  [complete] followed by [uncomplete] on an entry leaves the
    entry Active and every stand with the count and the totalProcessed
    it had before the [complete]. *)
Theorem C9_complete_uncomplete_round_trip :
  forall (queueId : Id) (now : Z) (db : DB) (entry : QueueEntry.t),
    Orm.findByPk_QueueEntry queueId db = Some entry ->
    let db1 := snd (QueuesRoutes.complete_handler queueId now db) in
    let db2 := snd (QueuesRoutes.uncomplete_handler queueId db1) in
    (exists entry',
       Orm.findByPk_QueueEntry queueId db2 = Some entry' /\
       QueueEntry.status entry' = Active)
    /\
    forall (pk : Id) (standQueue : StandQueue.t),
      Orm.findByPk_StandQueue (Some pk) db = Some standQueue ->
      exists standQueue',
        Orm.findByPk_StandQueue (Some pk) db2 = Some standQueue' /\
        StandQueue.currentParticipants standQueue'
        = StandQueue.currentParticipants standQueue /\
        StandQueue.totalProcessed standQueue'
        = StandQueue.totalProcessed standQueue.
Proof.
  intros queueId now db entry H db1 db2. split.
  - pose proof (complete_reads_back queueId now db entry H) as H1.
    fold db1 in H1.
    pose proof (uncomplete_reads_back queueId db1 _ H1) as H2.
    fold db2 in H2. eexists. split; [exact H2 | reflexivity].
  - intros pk standQueue Hs. exists standQueue.
    split; [| split; reflexivity].
    unfold Orm.findByPk_StandQueue in *. unfold db2, db1.
    now rewrite uncomplete_handler_stands, complete_handler_stands.
Qed.

Lemma C9_witness :
  exists entry',
    Orm.findByPk_QueueEntry 1%nat
      (snd (QueuesRoutes.uncomplete_handler 1%nat
              (snd (QueuesRoutes.complete_handler 1%nat 200
                      db_alice_active))))
    = Some entry' /\
    QueueEntry.status entry' = Active.
Proof.
  exact (proj1 (C9_complete_uncomplete_round_trip 1%nat 200
                  db_alice_active
                  (QueueEntry.mk 1%nat Active 100 None None
                                 (Some 10%nat) (Some 0%nat))
                  eq_refl)).
Defined.

(** ** The count and the entries that hold a slot *)

(** C1.  The handlers do not keep the count of a stand equal to the
    number of its Waiting or Active entries.  Alice holds the one slot
    the stand of "acme" counts; the organizer completes her entry.  The
    entry is written Completed, the handler then fails before it
    reaches the stand, and the stand still counts one participant with
    no Waiting or Active entry left on it.  The same from the cookie
    on, when the organizer's session row carries the key the middleware
    joins on. *)
Theorem C1_complete_leaves_the_count :
  occupancy_consistent db_alice_active /\
  QueuesRoutes.complete 1%nat 200 (ValidSession (Some organizer))
                        db_alice_active
  = (status_json 500 (ExnBody TypeError),
     mkDB [StandQueue.mk 0%nat "acme" Open 1 0]
          [QueueEntry.mk 1%nat Completed 100 None (Some 200)
                         (Some 10%nat) (Some 0%nat)]
          2%nat) /\
  ~ occupancy_consistent
      (snd (QueuesRoutes.complete 1%nat 200 (ValidSession (Some organizer))
                                  db_alice_active)) /\
  serve sample_pbkdf2 (QueueCall (Some (Uuid 7%nat)) 200 (Complete 1%nat 200))
        (mkServer auth_linked db_alice_active)
  = (status_json 500 (ExnBody TypeError),
     mkServer auth_linked
       (mkDB [StandQueue.mk 0%nat "acme" Open 1 0]
             [QueueEntry.mk 1%nat Completed 100 None (Some 200)
                            (Some 10%nat) (Some 0%nat)]
             2%nat)).
Proof.
  split; [| split; [| split]].
  - intros s [<- | []]. reflexivity.
  - reflexivity.
  - intros H.
    specialize (H (StandQueue.mk 0%nat "acme" Open 1 0)
                  (or_introl eq_refl)).
    discriminate H.
  - reflexivity.
Qed.

(** ** The joins and the leave *)

Section JoinsAndLeave.

Import Orm.

(** The three participant routes write nothing, whoever calls. *)
Lemma queues_join_keeps s enterpriseId now db :
  snd (QueuesRoutes.join enterpriseId now s db) = db.
Proof.
  unfold QueuesRoutes.join.
  now apply (guarded_preserves (fun d => d = db)).
Qed.

Lemma enterprise_join_keeps s enterpriseId now db :
  snd (EnterpriseQueueRoutes.join enterpriseId now s db) = db.
Proof.
  unfold EnterpriseQueueRoutes.join.
  now apply (guarded_preserves (fun d => d = db)).
Qed.

Lemma leave_keeps s enterpriseId db :
  snd (EnterpriseQueueRoutes.leave enterpriseId s db) = db.
Proof.
  unfold EnterpriseQueueRoutes.leave.
  now apply (guarded_preserves (fun d => d = db)).
Qed.

(** A guarded route whose handler never answers 200 never does. *)
Lemma guarded_not_200 {A : Type} roles
      (handler : User.t -> A -> Response * A) s st :
  (forall user, statusCode (fst (handler user st)) <> 200) ->
  statusCode (fst (guarded roles handler s st)) <> 200.
Proof.
  intros Hh.
  destruct (guarded_cases roles handler s st)
    as [[resp [-> [Hc | Hc]]] | [user [_ ->]]]; simpl.
  - rewrite Hc. discriminate.
  - rewrite Hc. discriminate.
  - apply Hh.
Qed.

(** What a Participant gets from a route guarded for Participants. *)
Lemma guarded_Participant {A : Type} roles
      (handler : User.t -> A -> Response * A) user st :
  roles = RoleArray [Participant] \/ roles = RoleString Participant ->
  User.role user = Participant ->
  guarded roles handler (ValidSession (Some user)) st = handler user st.
Proof.
  intros [-> | ->] Hr; unfold guarded; simpl; now rewrite Hr.
Qed.

End JoinsAndLeave.

(** C5 (as amended).  On the direct-join path no join and no leave
    changes the status of a stand: after a join on the stand of an
    enterprise, after a further join attempt and after a subsequent
    leave, the stand carries the status it had. *)
Theorem C5_join_leave_keep_status :
  forall (enterpriseId : string) (now now' : Z) (s1 s2 s3 : Session)
         (db : DB) (standQueue : StandQueue.t),
    Orm.findOne_StandQueue enterpriseId db = Some standQueue ->
    let db1 := snd (handle s1 (EnterpriseJoin enterpriseId now) db) in
    let db2 := snd (handle s2 (EnterpriseJoin enterpriseId now') db1) in
    let db3 := snd (handle s3 (EnterpriseLeave enterpriseId) db2) in
    forall db', In db' [db1; db2; db3] ->
      exists standQueue',
        Orm.findOne_StandQueue enterpriseId db' = Some standQueue' /\
        StandQueue.status standQueue' = StandQueue.status standQueue.
Proof.
  intros enterpriseId now now' s1 s2 s3 db standQueue H db1 db2 db3 db' Hin.
  assert (H1 : db1 = db) by apply enterprise_join_keeps.
  assert (H2 : db2 = db).
  { unfold db2. rewrite H1. apply enterprise_join_keeps. }
  assert (H3 : db3 = db).
  { unfold db3. rewrite H2. apply leave_keeps. }
  exists standQueue. split; [| reflexivity].
  destruct Hin as [<- | [<- | [<- | []]]]; congruence.
Qed.

Lemma C5_witness :
  exists standQueue',
    Orm.findOne_StandQueue "acme"
      (run [(ValidSession (Some alice), EnterpriseJoin "acme" 100);
            (ValidSession (Some bob), EnterpriseJoin "acme" 101);
            (ValidSession (Some alice), EnterpriseLeave "acme")]
           db_one_below)
    = Some standQueue' /\
    StandQueue.status standQueue' = Open.
Proof.
  apply (C5_join_leave_keep_status "acme" 100 101
           (ValidSession (Some alice)) (ValidSession (Some bob))
           (ValidSession (Some alice)) db_one_below
           (StandQueue.mk 0%nat "acme" Open 1 0) eq_refl).
  right. right. left. reflexivity.
Defined.

(** C5 as stated fails: the stand of "acme" counts one participant, one
    below the threshold of the direct join; Alice's join does not
    succeed and the stand is neither Full nor counts two. *)
Lemma C5_counterexample :
  Orm.findOne_StandQueue "acme" db_one_below
  = Some (StandQueue.mk 0%nat "acme" Open 1 0) /\
  EnterpriseQueueRoutes.join "acme" 100 (ValidSession (Some alice))
                             db_one_below
  = (status_json 500 (ExnBody DatabaseError), db_one_below).
Proof.
  split; reflexivity.
Qed.

(** C6.  A join on a Closed stand is not answered with a rejection of
    its own, on either path: both handlers fail on their first query
    and answer 500 with the database's error.  No entry is created and
    the stand is unchanged.  From the cookie on, Alice gets the same
    500 when her session row carries the key the middleware joins on,
    and 401 'Unauthorized' with the session [Auth.login] gave her. *)
Theorem C6_joins_on_Closed_throw :
  Orm.findOne_StandQueue "acme" db_closed
  = Some (StandQueue.mk 0%nat "acme" Closed 0 0) /\
  QueuesRoutes.join "acme" 100 (ValidSession (Some alice)) db_closed
  = (status_json 500 (ExnBody DatabaseError), db_closed) /\
  EnterpriseQueueRoutes.join "acme" 100 (ValidSession (Some alice))
                             db_closed
  = (status_json 500 (ExnBody DatabaseError), db_closed) /\
  serve sample_pbkdf2
        (QueueCall (Some (Uuid 8%nat)) 100 (QueuesJoin "acme" 100))
        (mkServer auth_linked db_closed)
  = (status_json 500 (ExnBody DatabaseError), mkServer auth_linked db_closed) /\
  serve sample_pbkdf2
        (QueueCall (Some (Uuid 8%nat)) 100 (QueuesJoin "acme" 100))
        (mkServer auth_logged_in db_closed)
  = (status_json 401 (MessageBody "Unauthorized"),
     mkServer auth_logged_in db_closed) /\
  serve sample_pbkdf2
        (QueueCall (Some (Uuid 8%nat)) 100 (EnterpriseJoin "acme" 100))
        (mkServer auth_linked db_closed)
  = (status_json 500 (ExnBody DatabaseError), mkServer auth_linked db_closed) /\
  serve sample_pbkdf2
        (QueueCall (Some (Uuid 8%nat)) 100 (EnterpriseJoin "acme" 100))
        (mkServer auth_logged_in db_closed)
  = (status_json 401 (MessageBody "Unauthorized"),
     mkServer auth_logged_in db_closed).
Proof.
  repeat split; reflexivity.
Qed.

(** C7.  The participant's limit is never applied.  Alice holds no
    entry and three stands are open: her join on the bulk-queue path
    and her join on the direct path both answer 500.  With two Waiting
    entries to her name the bulk-queue join answers the same 500, not
    the limit rejection.  The count the guard asks for throws on the
    name [userId]; under the key the table has, [UserId], it is 2.
    From the cookie on, Alice gets the same 500 when her session row
    carries the key the middleware joins on, and 401 'Unauthorized'
    with the session [Auth.login] gave her: she passes on neither. *)
Theorem C7_join_guards_throw :
  QueuesRoutes.join "acme" 100 (ValidSession (Some alice)) db_three_stands
  = (status_json 500 (ExnBody DatabaseError), db_three_stands) /\
  EnterpriseQueueRoutes.join "acme" 100 (ValidSession (Some alice))
                             db_three_stands
  = (status_json 500 (ExnBody DatabaseError), db_three_stands) /\
  QueuesRoutes.join "initech" 102 (ValidSession (Some alice)) db_two_held
  = (status_json 500 (ExnBody DatabaseError), db_two_held) /\
  Orm.count_QueueEntry
    [QueueEntry.key_is "userId" 10%nat;
     QueueEntry.status_in "status" [Waiting; Active]] db_two_held
  = inl DatabaseError /\
  Orm.count_QueueEntry
    [QueueEntry.key_is "UserId" 10%nat;
     QueueEntry.status_in "status" [Waiting; Active]] db_two_held
  = inr 2 /\
  serve sample_pbkdf2
        (QueueCall (Some (Uuid 8%nat)) 100 (QueuesJoin "acme" 100))
        (mkServer auth_linked db_three_stands)
  = (status_json 500 (ExnBody DatabaseError), mkServer auth_linked db_three_stands) /\
  serve sample_pbkdf2
        (QueueCall (Some (Uuid 8%nat)) 100 (QueuesJoin "acme" 100))
        (mkServer auth_logged_in db_three_stands)
  = (status_json 401 (MessageBody "Unauthorized"),
     mkServer auth_logged_in db_three_stands) /\
  serve sample_pbkdf2
        (QueueCall (Some (Uuid 8%nat)) 100 (EnterpriseJoin "acme" 100))
        (mkServer auth_linked db_three_stands)
  = (status_json 500 (ExnBody DatabaseError), mkServer auth_linked db_three_stands) /\
  serve sample_pbkdf2
        (QueueCall (Some (Uuid 8%nat)) 100 (EnterpriseJoin "acme" 100))
        (mkServer auth_logged_in db_three_stands)
  = (status_json 401 (MessageBody "Unauthorized"),
     mkServer auth_logged_in db_three_stands).
Proof.
  repeat split; reflexivity.
Qed.

(** C8.  Alice holds one Active entry on the stand of "acme", which
    counts one participant.  Both of her two leave calls answer 500 and
    the stand still counts one: the first is no success, the second no
    'not in queue'.  From the cookie on, a call of hers is answered the
    same 500 when her session row carries the key the middleware joins
    on, and 401 'Unauthorized' with the session [Auth.login] gave her;
    neither writes. *)
Theorem C8_leave_throws_twice :
  Orm.findOne_QueueEntry_include
    [QueueEntry.key_is "UserId" 10%nat;
     QueueEntry.status_is "status" Active] "acme" db_alice_active
  = inr (Some (QueueEntry.mk 1%nat Active 100 None None
                             (Some 10%nat) (Some 0%nat),
               StandQueue.mk 0%nat "acme" Open 1 0)) /\
  EnterpriseQueueRoutes.leave "acme" (ValidSession (Some alice))
                              db_alice_active
  = (status_json 500 (ExnBody DatabaseError), db_alice_active) /\
  EnterpriseQueueRoutes.leave "acme" (ValidSession (Some alice))
    (snd (EnterpriseQueueRoutes.leave "acme" (ValidSession (Some alice))
                                      db_alice_active))
  = (status_json 500 (ExnBody DatabaseError), db_alice_active) /\
  (let call := QueueCall (Some (Uuid 8%nat)) 100 (EnterpriseLeave "acme") in
   serve sample_pbkdf2 call (mkServer auth_linked db_alice_active)
   = (status_json 500 (ExnBody DatabaseError),
      mkServer auth_linked db_alice_active) /\
   serve sample_pbkdf2 call (mkServer auth_logged_in db_alice_active)
   = (status_json 401 (MessageBody "Unauthorized"),
      mkServer auth_logged_in db_alice_active)).
Proof.
  split; [| split; [| split; [| split]]]; reflexivity.
Qed.

(** * Further properties of the queue routes *)

(** ** Requests that are never accepted *)

(** X6.  [complete] and [uncomplete] never answer 200 and never write a
    stand, whoever calls and whatever the tables hold: for an entry
    that exists they write the entry and then answer 500, because the
    stand is looked up under [entry.standQueueId], which is undefined. *)
Theorem complete_uncomplete_never_reach_the_stand :
  forall (s : Session) (queueId : Id) (now : Z) (db : DB),
    statusCode (fst (QueuesRoutes.complete queueId now s db)) <> 200 /\
    standQueues (snd (QueuesRoutes.complete queueId now s db))
    = standQueues db /\
    statusCode (fst (QueuesRoutes.uncomplete queueId s db)) <> 200 /\
    standQueues (snd (QueuesRoutes.uncomplete queueId s db))
    = standQueues db /\
    (forall user entry,
       s = ValidSession (Some user) ->
       User.role user = Admin \/ User.role user = Organizer ->
       Orm.findByPk_QueueEntry queueId db = Some entry ->
       fst (QueuesRoutes.complete queueId now s db)
       = status_json 500 (ExnBody TypeError) /\
       fst (QueuesRoutes.uncomplete queueId s db)
       = status_json 500 (ExnBody TypeError)).
Proof.
  intros s queueId now db.
  split; [| split; [| split; [| split]]].
  - apply guarded_not_200. intros _.
    destruct (Orm.findByPk_QueueEntry queueId db) as [entry |] eqn:H.
    + rewrite (complete_handler_found _ _ _ _ H). discriminate.
    + rewrite (complete_handler_absent _ _ _ H). discriminate.
  - apply (handle_stands s (Complete queueId now)). discriminate.
  - apply guarded_not_200. intros _.
    destruct (Orm.findByPk_QueueEntry queueId db) as [entry |] eqn:H.
    + rewrite (uncomplete_handler_found _ _ _ H). discriminate.
    + rewrite (uncomplete_handler_absent _ _ H). discriminate.
  - apply (handle_stands s (Uncomplete queueId)). discriminate.
  - intros user entry -> Hrole Hfound. split.
    + unfold QueuesRoutes.complete, guarded. simpl.
      rewrite (complete_handler_found _ _ _ _ Hfound).
      destruct Hrole as [-> | ->]; reflexivity.
    + unfold QueuesRoutes.uncomplete, guarded. simpl.
      rewrite (uncomplete_handler_found _ _ _ Hfound).
      destruct Hrole as [-> | ->]; reflexivity.
Qed.

Lemma complete_uncomplete_never_reach_the_stand_witness :
  fst (QueuesRoutes.complete 1%nat 200 (ValidSession (Some organizer))
                             db_alice_active)
  = status_json 500 (ExnBody TypeError).
Proof.
  destruct (complete_uncomplete_never_reach_the_stand
              (ValidSession (Some organizer)) 1%nat 200 db_alice_active)
    as [_ [_ [_ [_ H]]]].
  apply (H organizer
           (QueueEntry.mk 1%nat Active 100 None None
                          (Some 10%nat) (Some 0%nat))).
  - reflexivity.
  - right. reflexivity.
  - reflexivity.
Defined.

(** X23.  The bulk-queue join is never accepted: whoever calls and
    whatever the tables hold, it does not answer 200 and writes
    nothing; a Participant gets 500 with the database's error, because
    the count of the participant's entries throws. *)
Theorem bulk_join_never_accepted :
  forall (s : Session) (enterpriseId : string) (now : Z) (db : DB),
    statusCode (fst (QueuesRoutes.join enterpriseId now s db)) <> 200 /\
    snd (QueuesRoutes.join enterpriseId now s db) = db /\
    (forall user,
       s = ValidSession (Some user) -> User.role user = Participant ->
       fst (QueuesRoutes.join enterpriseId now s db)
       = status_json 500 (ExnBody DatabaseError)).
Proof.
  intros s enterpriseId now db. split; [| split].
  - apply guarded_not_200. intros user. discriminate.
  - apply queues_join_keeps.
  - intros user -> Hr. unfold QueuesRoutes.join.
    rewrite guarded_Participant; trivial. now left.
Qed.

Lemma bulk_join_never_accepted_witness :
  fst (QueuesRoutes.join "acme" 100 (ValidSession (Some alice))
                         db_three_stands)
  = status_json 500 (ExnBody DatabaseError).
Proof.
  apply (proj2 (proj2 (bulk_join_never_accepted
                         (ValidSession (Some alice)) "acme" 100
                         db_three_stands)) alice);
    reflexivity.
Defined.

(** X24.  The direct join and the leave are never accepted either:
    neither answers 200, neither writes, and a Participant gets 500
    with the database's error from the first query of the handler. *)
Theorem direct_join_and_leave_never_accepted :
  forall (s : Session) (enterpriseId : string) (now : Z) (db : DB),
    statusCode (fst (EnterpriseQueueRoutes.join enterpriseId now s db))
    <> 200 /\
    snd (EnterpriseQueueRoutes.join enterpriseId now s db) = db /\
    statusCode (fst (EnterpriseQueueRoutes.leave enterpriseId s db))
    <> 200 /\
    snd (EnterpriseQueueRoutes.leave enterpriseId s db) = db /\
    (forall user,
       s = ValidSession (Some user) -> User.role user = Participant ->
       fst (EnterpriseQueueRoutes.join enterpriseId now s db)
       = status_json 500 (ExnBody DatabaseError) /\
       fst (EnterpriseQueueRoutes.leave enterpriseId s db)
       = status_json 500 (ExnBody DatabaseError)).
Proof.
  intros s enterpriseId now db.
  split; [| split; [| split; [| split]]].
  - apply guarded_not_200. intros user. discriminate.
  - apply enterprise_join_keeps.
  - apply guarded_not_200. intros user. discriminate.
  - apply leave_keeps.
  - intros user -> Hr. split.
    + unfold EnterpriseQueueRoutes.join.
      rewrite guarded_Participant; trivial. now right.
    + unfold EnterpriseQueueRoutes.leave.
      rewrite guarded_Participant; trivial. now right.
Qed.

Lemma direct_join_and_leave_never_accepted_witness :
  fst (EnterpriseQueueRoutes.leave "acme" (ValidSession (Some alice))
                                   db_alice_active)
  = status_json 500 (ExnBody DatabaseError).
Proof.
  destruct (direct_join_and_leave_never_accepted
              (ValidSession (Some alice)) "acme" 100 db_alice_active)
    as [_ [_ [_ [_ H]]]].
  apply (H alice); reflexivity.
Defined.

(** ** The processed counter *)

Section Processed.

Import Orm.

Lemma totalProcessed_save s' db :
  0 <= StandQueue.totalProcessed s' ->
  totalProcessed_nonneg db -> totalProcessed_nonneg (save_StandQueue s' db).
Proof.
  intros Hs' Hdb s Hs. simpl in Hs. apply in_map_iff in Hs.
  destruct Hs as [s0 [Heq Hin]].
  destruct (Nat.eqb _ _) in Heq; subst s; [exact Hs' | now apply Hdb].
Qed.

Lemma stand_handler_totalProcessed enterpriseId status cp db :
  totalProcessed_nonneg db ->
  totalProcessed_nonneg
    (snd (QueuesRoutes.stand_handler enterpriseId status cp db)).
Proof.
  intros Hdb. unfold QueuesRoutes.stand_handler.
  destruct (findOne_StandQueue enterpriseId db) as [standQueue |] eqn:Hf.
  - apply findOne_StandQueue_sound in Hf. destruct Hf as [Hin _].
    destruct cp as [v |].
    + unfold update_StandQueue.
      destruct (StandQueue.validate _); [| exact Hdb].
      simpl. apply totalProcessed_save; [| exact Hdb]. simpl.
      now apply Hdb.
    + simpl. apply totalProcessed_save; [| exact Hdb]. simpl.
      now apply Hdb.
  - destruct (create_StandQueue_cases enterpriseId
                (match status with Some v => v | None => Open end)
                (match cp with Some v => v | None => 0 end) db)
      as [[e ->] | [_ ->]]; [exact Hdb |].
    simpl. intros s Hs. apply in_app_or in Hs.
    destruct Hs as [Hs | [<- | []]]; [now apply Hdb | simpl; lia].
Qed.

Lemma handle_totalProcessed s r db :
  totalProcessed_nonneg db -> totalProcessed_nonneg (snd (handle s r db)).
Proof.
  intros Hdb.
  assert (Hsame : forall db', standQueues db' = standQueues db ->
                              totalProcessed_nonneg db').
  { unfold totalProcessed_nonneg. intros db' ->. exact Hdb. }
  destruct r as [e st cp | e now | q now | q | e now | e];
    try (apply Hsame; now apply handle_stands).
  cbn [handle]. unfold QueuesRoutes.stand.
  apply (guarded_preserves totalProcessed_nonneg); trivial.
  intros user _. now apply stand_handler_totalProcessed.
Qed.

End Processed.

(** X5.  In every reachable state every stand's totalProcessed is at
    least 0: a stand is created with 0, and the only writes of the
    column in the source are the +1 of [complete] and the
    max(0, n - 1) of [uncomplete]. *)
Theorem totalProcessed_never_negative :
  forall db, reachable db ->
    forall s, In s (standQueues db) -> 0 <= StandQueue.totalProcessed s.
Proof.
  intros db Hdb. change (totalProcessed_nonneg db).
  induction Hdb as [| db s r _ IH].
  - intros s [].
  - now apply handle_totalProcessed.
Qed.

Lemma totalProcessed_never_negative_witness :
  0 <= StandQueue.totalProcessed (StandQueue.mk 0%nat "acme" Full 4 0).
Proof.
  apply (totalProcessed_never_negative
           (run [(ValidSession (Some organizer), Uncomplete 1%nat);
                 (ValidSession (Some organizer), Complete 1%nat 300)]
                db_at_maximum)).
  - apply reachable_run. apply (reachable_run _ _ reachable_empty).
  - left. reflexivity.
Defined.

(** ** Entries are kept *)

Section EntriesKept.

Import Orm.

Lemma same_entry_refl e : same_entry e e.
Proof. repeat split. Qed.

Lemma kept_same db db' :
  queueEntries db' = queueEntries db -> entries_kept db db'.
Proof.
  intros H e He. exists e. rewrite H.
  split; [exact He | split; [apply same_entry_refl | now left]].
Qed.

(** An entry written back with its own key, association keys and
    joinedAt, and with status Completed or Active. *)
Lemma kept_update e0 e' db :
  NoDup (map QueueEntry.id (queueEntries db)) ->
  In e0 (queueEntries db) ->
  same_entry e0 e' ->
  QueueEntry.status e' = Completed \/ QueueEntry.status e' = Active ->
  entries_kept db (update_QueueEntry e' db).
Proof.
  intros Hnd Hin0 Hsame Hst e He.
  destruct (Nat.eqb (QueueEntry.id e) (QueueEntry.id e')) eqn:Hk.
  - exists e'. split.
    + simpl. apply in_map_iff. exists e. now rewrite Hk.
    + apply Nat.eqb_eq in Hk. destruct Hsame as [Hid Hrest].
      assert (e = e0) as ->.
      { apply (NoDup_key_eq QueueEntry.id _ e e0 Hnd He Hin0).
        congruence. }
      split; [now split | now right].
  - exists e. split.
    + simpl. apply in_map_iff. exists e. now rewrite Hk.
    + split; [apply same_entry_refl | now left].
Qed.

Lemma complete_handler_kept q now db :
  NoDup (map QueueEntry.id (queueEntries db)) ->
  entries_kept db (snd (QueuesRoutes.complete_handler q now db)).
Proof.
  intros Hnd.
  destruct (findByPk_QueueEntry q db) as [entry |] eqn:H.
  - rewrite (complete_handler_found _ _ _ _ H). simpl snd.
    apply (kept_update entry); trivial.
    + now apply (find_key_sound QueueEntry.id) in H.
    + repeat split.
    + now left.
  - rewrite (complete_handler_absent _ _ _ H). now apply kept_same.
Qed.

Lemma uncomplete_handler_kept q db :
  NoDup (map QueueEntry.id (queueEntries db)) ->
  entries_kept db (snd (QueuesRoutes.uncomplete_handler q db)).
Proof.
  intros Hnd.
  destruct (findByPk_QueueEntry q db) as [entry |] eqn:H.
  - rewrite (uncomplete_handler_found _ _ _ H). simpl snd.
    apply (kept_update entry); trivial.
    + now apply (find_key_sound QueueEntry.id) in H.
    + repeat split.
    + now right.
  - rewrite (uncomplete_handler_absent _ _ H). now apply kept_same.
Qed.

Lemma handle_kept s r db :
  NoDup (map QueueEntry.id (queueEntries db)) ->
  entries_kept db (snd (handle s r db)).
Proof.
  intros Hnd.
  destruct r as [e st cp | e now | q now | q | e now | e]; cbn [handle].
  - unfold QueuesRoutes.stand.
    apply (guarded_preserves (entries_kept db));
      [| now apply kept_same].
    intros user _. apply kept_same. apply stand_handler_entries.
  - rewrite queues_join_keeps. now apply kept_same.
  - unfold QueuesRoutes.complete.
    apply (guarded_preserves (entries_kept db));
      [| now apply kept_same].
    intros user _. now apply complete_handler_kept.
  - unfold QueuesRoutes.uncomplete.
    apply (guarded_preserves (entries_kept db));
      [| now apply kept_same].
    intros user _. now apply uncomplete_handler_kept.
  - rewrite enterprise_join_keeps. now apply kept_same.
  - rewrite leave_keeps. now apply kept_same.
Qed.

Lemma update_QueueEntry_keys e' db :
  map QueueEntry.id (queueEntries (update_QueueEntry e' db))
  = map QueueEntry.id (queueEntries db).
Proof. apply (map_write_keys QueueEntry.id). Qed.

(** No request adds, drops or moves a key of the entry table. *)
Lemma handle_keys s r db :
  map QueueEntry.id (queueEntries (snd (handle s r db)))
  = map QueueEntry.id (queueEntries db).
Proof.
  set (P := fun d => map QueueEntry.id (queueEntries d)
                     = map QueueEntry.id (queueEntries db)).
  change (P (snd (handle s r db))).
  destruct r as [e st cp | e now | q now | q | e now | e]; cbn [handle].
  - unfold QueuesRoutes.stand.
    apply (guarded_preserves P); [| reflexivity].
    intros user _. unfold P. now rewrite stand_handler_entries.
  - now rewrite queues_join_keeps.
  - unfold QueuesRoutes.complete.
    apply (guarded_preserves P); [| reflexivity].
    intros user _. unfold P.
    destruct (findByPk_QueueEntry q db) as [entry |] eqn:H.
    + rewrite (complete_handler_found _ _ _ _ H). cbn [snd].
      apply update_QueueEntry_keys.
    + now rewrite (complete_handler_absent _ _ _ H).
  - unfold QueuesRoutes.uncomplete.
    apply (guarded_preserves P); [| reflexivity].
    intros user _. unfold P.
    destruct (findByPk_QueueEntry q db) as [entry |] eqn:H.
    + rewrite (uncomplete_handler_found _ _ _ H). cbn [snd].
      apply update_QueueEntry_keys.
    + now rewrite (uncomplete_handler_absent _ _ H).
  - now rewrite enterprise_join_keeps.
  - now rewrite leave_keeps.
Qed.

End EntriesKept.

(** X7.  No request deletes an entry or moves it: in a table with
    unique keys, every entry is still there after any request, under
    the same key, with the same participant, the same stand and the
    same joinedAt. *)
Theorem entries_never_deleted_or_moved :
  forall db, NoDup (map QueueEntry.id (queueEntries db)) ->
  forall (s : Session) (r : Request) (e : QueueEntry.t),
    In e (queueEntries db) ->
    exists e', In e' (queueEntries (snd (handle s r db))) /\
               QueueEntry.id e' = QueueEntry.id e /\
               QueueEntry.UserId e' = QueueEntry.UserId e /\
               QueueEntry.StandQueueId e' = QueueEntry.StandQueueId e /\
               QueueEntry.joinedAt e' = QueueEntry.joinedAt e.
Proof.
  intros db Hnd s r e He.
  destruct (handle_kept s r db Hnd e He) as [e' [Hin [Hsame _]]].
  exists e'. split; [exact Hin | exact Hsame].
Qed.

Lemma entries_never_deleted_or_moved_witness :
  exists e',
    In e' (queueEntries
             (snd (handle (ValidSession (Some organizer))
                          (Complete 1%nat 200) db_alice_active))) /\
    QueueEntry.id e' = 1%nat /\ QueueEntry.UserId e' = Some 10%nat /\
    QueueEntry.StandQueueId e' = Some 0%nat /\ QueueEntry.joinedAt e' = 100.
Proof.
  apply (entries_never_deleted_or_moved db_alice_active
           (NoDup_cons 1%nat (fun H : In 1%nat [] => H) (NoDup_nil Id))
           (ValidSession (Some organizer)) (Complete 1%nat 200)
           (QueueEntry.mk 1%nat Active 100 None None
                          (Some 10%nat) (Some 0%nat))).
  left. reflexivity.
Defined.

(** X8.  The status of an existing entry moves only as follows: it
    stays, it becomes Completed ([complete], from any status) or it
    becomes Active ([uncomplete], from any status).  So no request ever
    puts an existing entry back to Waiting or sets it to Cancelled. *)
Theorem entry_status_moves :
  forall db, NoDup (map QueueEntry.id (queueEntries db)) ->
  forall (s : Session) (r : Request) (e e' : QueueEntry.t),
    In e (queueEntries db) ->
    In e' (queueEntries (snd (handle s r db))) ->
    QueueEntry.id e' = QueueEntry.id e ->
    QueueEntry.status e' = QueueEntry.status e \/
    QueueEntry.status e' = Completed \/
    QueueEntry.status e' = Active.
Proof.
  intros db Hnd s r e e' He He' Hid.
  assert (Hnd' : NoDup (map QueueEntry.id
                            (queueEntries (snd (handle s r db)))))
    by now rewrite handle_keys.
  destruct (handle_kept s r db Hnd e He) as [e2 [Hin [[Hid2 _] Hmove]]].
  assert (e2 = e') as ->.
  { apply (NoDup_key_eq QueueEntry.id _ e2 e' Hnd' Hin He'). congruence. }
  exact Hmove.
Qed.

Lemma entry_status_moves_witness :
  Active = Waiting \/ Active = Completed \/ Active = Active.
Proof.
  apply (entry_status_moves db_alice_waiting
           (NoDup_cons 1%nat (fun H : In 1%nat [] => H) (NoDup_nil Id))
           (ValidSession (Some organizer)) (Uncomplete 1%nat)
           (QueueEntry.mk 1%nat Waiting 100 None None
                          (Some 10%nat) (Some 0%nat))
           (QueueEntry.mk 1%nat Active 100 None None
                          (Some 10%nat) (Some 0%nat))).
  - left. reflexivity.
  - left. reflexivity.
  - reflexivity.
Defined.

(** ** The direct-join threshold *)

Section Threshold.

Import Orm.

Lemma at_most_save n s' db :
  StandQueue.currentParticipants s' <= n ->
  count_at_most n db -> count_at_most n (save_StandQueue s' db).
Proof.
  intros Hs' Hdb s Hs. simpl in Hs. apply in_map_iff in Hs.
  destruct Hs as [s0 [Heq Hin]].
  destruct (Nat.eqb _ _) in Heq; subst s; [exact Hs' | now apply Hdb].
Qed.

Lemma threshold_step s r db :
  is_Uncomplete r = false -> sets_count r = false ->
  count_at_most 2 db -> count_at_most 2 (snd (handle s r db)).
Proof.
  intros Hu Hc Hdb.
  assert (Hsame : forall db', standQueues db' = standQueues db ->
                              count_at_most 2 db').
  { unfold count_at_most. intros db' ->. exact Hdb. }
  destruct r as [e st [v |] | e now | q now | q | e now | e];
    try discriminate;
    try (apply Hsame; now apply handle_stands).
  (* a stand request that leaves the count alone *)
  cbn [handle]. unfold QueuesRoutes.stand.
  apply (guarded_preserves (count_at_most 2)); trivial. intros user _.
  unfold QueuesRoutes.stand_handler.
  destruct (findOne_StandQueue e db) as [sq |] eqn:Hf.
  - simpl. apply at_most_save; [| exact Hdb]. simpl. apply Hdb.
    now apply findOne_StandQueue_sound in Hf.
  - destruct (create_StandQueue_cases e
                (match st with Some v => v | None => Open end) 0 db)
      as [[ex ->] | [_ ->]]; [exact Hdb |].
    simpl. intros x Hx. apply in_app_or in Hx.
    destruct Hx as [Hx | [<- | []]]; [now apply Hdb | simpl; lia].
Qed.

End Threshold.

(** X9.  As long as nobody calls [uncomplete] and no stand request sets
    the count, no stand ever counts more than 2 participants: the
    direct join is the only request written to raise the count, and it
    does so below 2 only. *)
Theorem threshold_two_without_uncomplete :
  forall (reqs : list (Session * Request)),
    forallb (fun sr => negb (is_Uncomplete (snd sr))
                       && negb (sets_count (snd sr))) reqs = true ->
    forall standQueue,
      In standQueue (standQueues (run reqs emptyDB)) ->
      StandQueue.currentParticipants standQueue <= 2.
Proof.
  intros reqs Hreqs.
  assert (H : forall db, count_at_most 2 db ->
                         count_at_most 2 (run reqs db)).
  { induction reqs as [| [s r] rest IH]; intros db Hdb; simpl;
      [exact Hdb |].
    simpl in Hreqs. apply andb_true_iff in Hreqs.
    destruct Hreqs as [Hr Hrest]. apply andb_true_iff in Hr.
    destruct Hr as [Hu Hc]. apply negb_true_iff in Hu, Hc.
    apply IH; [exact Hrest |]. now apply threshold_step. }
  apply H. intros s [].
Qed.

Lemma threshold_two_without_uncomplete_witness :
  StandQueue.currentParticipants (StandQueue.mk 0%nat "acme" Open 0 0) <= 2.
Proof.
  apply (threshold_two_without_uncomplete
           [(ValidSession (Some organizer), StandReq "acme" None None);
            (ValidSession (Some alice), EnterpriseJoin "acme" 100);
            (ValidSession (Some bob), EnterpriseJoin "acme" 101);
            (ValidSession (Some organizer), Complete 1%nat 200)]
           eq_refl).
  left. reflexivity.
Defined.

(** ** The stand route *)

(** X10.  A stand request answered 200 can be read back: the stand of
    that enterprise then carries the status and the count of the
    request, the response body is that stand, and a field the request
    left out keeps its stored value, or takes the default ('Open', 0)
    when the stand is new. *)
Theorem stand_request_reads_back :
  forall (enterpriseId : string) (status : option StandStatus)
         (currentParticipants : option Z) (db : DB),
    statusCode (fst (QueuesRoutes.stand_handler enterpriseId status
                       currentParticipants db)) = 200 ->
    exists s,
      Orm.findOne_StandQueue enterpriseId
        (snd (QueuesRoutes.stand_handler enterpriseId status
                currentParticipants db)) = Some s /\
      fst (QueuesRoutes.stand_handler enterpriseId status
             currentParticipants db) = json (StandBody s) /\
      StandQueue.status s
      = match status, Orm.findOne_StandQueue enterpriseId db with
        | Some v, _ => v
        | None, Some old => StandQueue.status old
        | None, None => Open
        end /\
      StandQueue.currentParticipants s
      = match currentParticipants,
              Orm.findOne_StandQueue enterpriseId db with
        | Some v, _ => v
        | None, Some old => StandQueue.currentParticipants old
        | None, None => 0
        end.
Proof.
  intros e st cp db. unfold QueuesRoutes.stand_handler.
  destruct (Orm.findOne_StandQueue e db) as [sq |] eqn:Hf.
  - destruct (findOne_StandQueue_sound _ _ _ Hf) as [_ Hent].
    assert (H : forall s', StandQueue.id s' = StandQueue.id sq ->
                           StandQueue.enterpriseId s' = e ->
                           Orm.findOne_StandQueue e
                             (Orm.save_StandQueue s' db) = Some s').
    { intros s' Hid He. now apply findOne_StandQueue_saved with sq. }
    destruct cp as [v |].
    + unfold Orm.update_StandQueue.
      destruct (StandQueue.validate _); [| simpl; discriminate].
      intros _. eexists. split; [apply H; [reflexivity | exact Hent] |].
      simpl. destruct st; repeat split.
    + intros _. eexists. split; [apply H; [reflexivity | exact Hent] |].
      simpl. destruct st; repeat split.
  - destruct (create_StandQueue_cases e
                (match st with Some v => v | None => Open end)
                (match cp with Some v => v | None => 0 end) db)
      as [[ex ->] | [_ ->]]; [simpl; discriminate |].
    intros _. eexists. split.
    + unfold Orm.findOne_StandQueue. simpl. apply find_app_last.
      * intros x Hx. exact (find_none _ _ Hf x Hx).
      * simpl. apply String.eqb_refl.
    + simpl. destruct st, cp; repeat split.
Qed.

Lemma stand_request_reads_back_witness :
  exists s,
    Orm.findOne_StandQueue "acme"
      (snd (QueuesRoutes.stand_handler "acme" (Some Closed) None
              db_one_below)) = Some s /\
    StandQueue.status s = Closed /\ StandQueue.currentParticipants s = 1.
Proof.
  destruct (stand_request_reads_back "acme" (Some Closed) None
              db_one_below eq_refl) as [s [Hf [_ [Hs Hc]]]].
  exists s. split; [exact Hf | split; [exact Hs | exact Hc]].
Defined.

(** * Users and sessions *)

(** ** User roles *)

Section UserRoles.

Lemma Role_eqb_eq (a b : Role) : Role_eqb a b = true <-> a = b.
Proof. destruct a, b; simpl; split; intro H; congruence. Qed.

Lemma no_Enterprise_app (l : list User.t) (n : Id) (u : User.t) :
  no_Enterprise (mkUserDB l n) ->
  User.role u <> Enterprise ->
  forall m, no_Enterprise (mkUserDB (l ++ [u]) m).
Proof.
  intros Hl Hu m v Hv. simpl in Hv. apply in_app_or in Hv.
  destruct Hv as [Hv | [-> | []]]; [now apply Hl | exact Hu].
Qed.

(** The public register route appends at most one user, and that user
    is a Participant whatever the body carried. *)
Lemma register_creates_Participant username password role hashed db :
  let db' := snd (AuthRoutes.register username password role hashed db) in
  users db' = users db \/
  exists u, users db' = users db ++ [u] /\ User.role u = Participant.
Proof.
  unfold AuthRoutes.register, Auth.register.
  destruct (find _ (users db)); simpl; [now left |].
  right. eexists. split; reflexivity.
Qed.

Lemma accepted_newRole_cases newRole r :
  AuthRoutes.accepted_newRole newRole = Some r ->
  (newRole = "Admin"%string /\ r = Admin) \/
  (newRole = "Organizer"%string /\ r = Organizer).
Proof.
  unfold AuthRoutes.accepted_newRole.
  destruct (String.eqb newRole "Admin") eqn:Ha.
  - apply String.eqb_eq in Ha. intros [= <-]. now left.
  - destruct (String.eqb newRole "Organizer") eqn:Ho; [| discriminate].
    apply String.eqb_eq in Ho. intros [= <-]. now right.
Qed.

(** change-role answers 200 only to an Admin caller and only for the
    new roles 'Admin' and 'Organizer'; any other answer leaves the user
    table as it was. *)
Lemma change_role_only_Admin_Organizer userId newRole s db :
  (statusCode (fst (AuthRoutes.change_role userId newRole s db)) = 200 ->
   (exists caller,
      s = ValidSession (Some caller) /\ User.role caller = Admin) /\
   (newRole = "Admin"%string \/ newRole = "Organizer"%string)) /\
  (statusCode (fst (AuthRoutes.change_role userId newRole s db)) <> 200 ->
   snd (AuthRoutes.change_role userId newRole s db) = db).
Proof.
  unfold AuthRoutes.change_role.
  destruct s as [ | | | | [caller |]]; simpl;
    try (split; [discriminate | reflexivity]).
  destruct (Role_eqb (User.role caller) Admin) eqn:Hr; simpl;
    [| split; [discriminate | reflexivity]].
  apply Role_eqb_eq in Hr.
  destruct (AuthRoutes.accepted_newRole newRole) as [r |] eqn:Hn;
    simpl; [| split; [discriminate | reflexivity]].
  apply accepted_newRole_cases in Hn.
  destruct (Auth.changeUserRole userId r db) as [m | db'];
    simpl; [split; [discriminate | reflexivity] |].
  split; [| intros H; now destruct H].
  intros _. split; [now exists caller | tauto].
Qed.

Lemma changeUserRole_roles userId r db db' u :
  Auth.changeUserRole userId r db = inr db' ->
  In u (users db') -> In u (users db) \/ User.role u = r.
Proof.
  unfold Auth.changeUserRole.
  destruct (find _ (users db)) as [user |]; [| discriminate].
  intros [= <-] Hu. simpl in Hu.
  apply in_map_iff in Hu. destruct Hu as [v [Hv Hin]].
  destruct (Nat.eqb _ _) in Hv; subst u; [now right | now left].
Qed.

(** Whoever calls, change-role writes no role but Admin or Organizer. *)
Lemma change_role_roles userId newRole s db u :
  In u (users (snd (AuthRoutes.change_role userId newRole s db))) ->
  In u (users db) \/ User.role u = Admin \/ User.role u = Organizer.
Proof.
  unfold AuthRoutes.change_role.
  destruct (sent s) as [resp | [caller |]]; simpl; try tauto.
  destruct (negb _); simpl; [tauto |].
  destruct (AuthRoutes.accepted_newRole newRole) as [r |] eqn:Hn;
    simpl; [| tauto].
  destruct (Auth.changeUserRole userId r db) as [m | db'] eqn:Hc;
    simpl; [tauto |].
  intros Hu. destruct (changeUserRole_roles _ _ _ _ _ Hc Hu) as [H | H];
    [now left | right].
  apply accepted_newRole_cases in Hn.
  destruct Hn as [[_ ->] | [_ ->]]; tauto.
Qed.

Lemma register_no_Enterprise username password role hashed db :
  no_Enterprise db ->
  no_Enterprise (snd (AuthRoutes.register username password role hashed db)).
Proof.
  intros Hdb u Hu.
  destruct (register_creates_Participant username password role hashed db)
    as [H | [v [H Hv]]]; rewrite H in Hu.
  - now apply Hdb.
  - apply in_app_or in Hu. destruct Hu as [Hu | [<- | []]].
    + now apply Hdb.
    + rewrite Hv. discriminate.
Qed.

Lemma change_role_no_Enterprise userId newRole s db :
  no_Enterprise db ->
  no_Enterprise (snd (AuthRoutes.change_role userId newRole s db)).
Proof.
  intros Hdb u Hu.
  destruct (change_role_roles _ _ _ _ _ Hu) as [H | [H | H]].
  - now apply Hdb.
  - rewrite H. discriminate.
  - rewrite H. discriminate.
Qed.

(** With [req.user] null the enterprise-creation route does not get
    past its own [checkRole]. *)
Lemma create_without_user username password hashed sheet s db :
  (forall user, s <> ValidSession (Some user)) ->
  snd (EnterpriseRoutes.create username password hashed sheet s db) = db.
Proof.
  intros Hs. unfold EnterpriseRoutes.create.
  destruct s as [ | | | | [user |]]; simpl; trivial.
  now destruct (Hs user).
Qed.

End UserRoles.

(** ** The session table *)

Section SessionLemmas.

Lemma find_all_false {A : Type} (p : A -> bool) (l : list A) :
  (forall x, In x l -> p x = false) -> find p l = None.
Proof.
  intros H. induction l as [| x l IH]; simpl; [reflexivity |].
  rewrite (H x (or_introl eq_refl)). apply IH.
  intros y Hy. apply H. now right.
Qed.

Lemma find_filter_out (sessionId : Id) (l : list SessionRow.t) :
  find (fun s => Nat.eqb (SessionRow.id s) sessionId)
       (filter (fun s => negb (Nat.eqb (SessionRow.id s) sessionId)) l)
  = None.
Proof.
  apply find_all_false. intros x Hx. apply filter_In in Hx.
  destruct Hx as [_ Hx]. now apply negb_true_iff in Hx.
Qed.

Lemma find_filter_other (sessionId other : Id) (l : list SessionRow.t) :
  other <> sessionId ->
  find (fun s => Nat.eqb (SessionRow.id s) other)
       (filter (fun s => negb (Nat.eqb (SessionRow.id s) sessionId)) l)
  = find (fun s => Nat.eqb (SessionRow.id s) other) l.
Proof.
  intros Hne. induction l as [| x l IH]; simpl; [reflexivity |].
  destruct (Nat.eqb (SessionRow.id x) sessionId) eqn:Hk; simpl.
  - apply Nat.eqb_eq in Hk.
    destruct (Nat.eqb (SessionRow.id x) other) eqn:Ho; [| exact IH].
    apply Nat.eqb_eq in Ho. congruence.
  - now rewrite IH.
Qed.

(** What [authMiddleware] does to the tables: nothing, or the one
    expired session destroyed. *)
Lemma authMiddleware_tables cookie now db :
  snd (authMiddleware cookie now db) = db \/
  (fst (authMiddleware cookie now db) = ExpiredSession /\
   exists sessionId,
     cookie = Some (Uuid sessionId) /\
     snd (authMiddleware cookie now db) = destroy_session sessionId db).
Proof.
  unfold authMiddleware.
  destruct cookie as [[| sessionId] |]; simpl; try tauto.
  destruct (find_session sessionId db) as [session |]; simpl; [| tauto].
  destruct (SessionRow.expiresAt session <? now); simpl; [| tauto].
  right. split; [reflexivity |]. now exists sessionId.
Qed.

Lemma authMiddleware_users cookie now db :
  userDB (snd (authMiddleware cookie now db)) = userDB db.
Proof.
  destruct (authMiddleware_tables cookie now db)
    as [-> | [_ [sessionId [_ ->]]]]; reflexivity.
Qed.

Lemma authMiddleware_sessions cookie now db s :
  In s (sessions (snd (authMiddleware cookie now db))) ->
  In s (sessions db).
Proof.
  destruct (authMiddleware_tables cookie now db)
    as [-> | [_ [sessionId [_ ->]]]]; trivial.
  simpl. intros H. now apply filter_In in H.
Qed.

(** Where no session row carries a [UserId], the middleware passes no
    user on. *)
Lemma authMiddleware_no_user cookie now db :
  no_UserId db ->
  forall user, fst (authMiddleware cookie now db) <> ValidSession (Some user).
Proof.
  intros Hdb user. unfold authMiddleware.
  destruct cookie as [[| sessionId] |]; simpl; try discriminate.
  destruct (find_session sessionId db) as [session |] eqn:Hs; simpl;
    [| discriminate].
  destruct (SessionRow.expiresAt session <? now); simpl; [discriminate |].
  apply find_some in Hs. destruct Hs as [Hin _].
  unfold included_User. rewrite (Hdb session Hin). discriminate.
Qed.

End SessionLemmas.

(** ** The server *)

Section ServerLemmas.

Variable pbkdf2Sync : string -> string -> string.

(** What every call keeps: no Enterprise user, and no session row with
    a [UserId]. *)
Lemma serve_keeps c sv :
  no_Enterprise (userDB (authDB sv)) /\ no_UserId (authDB sv) ->
  no_Enterprise (userDB (authDB (snd (serve pbkdf2Sync c sv)))) /\
  no_UserId (authDB (snd (serve pbkdf2Sync c sv))).
Proof.
  intros [He Hu].
  destruct c as [username password role salt
                | username password now now'
                | cookie now authorization
                | cookie now userId newRole
                | cookie now username password salt sheet
                | cookie now r]; cbn [serve].
  - (* register *)
    destruct (AuthRoutes.register username password role _ _)
      as [resp users'] eqn:Hr.
    simpl. split; [| exact Hu].
    change users' with (snd (resp, users')). rewrite <- Hr.
    now apply register_no_Enterprise.
  - (* login *)
    unfold AuthRoutes.login, login.
    destruct (find _ (users (userDB (authDB sv)))) as [user |];
      [| now split].
    destruct (negb _); [now split |].
    simpl. split; [exact He |].
    intros s Hs. apply in_app_or in Hs.
    destruct Hs as [Hs | [<- | []]]; [| reflexivity].
    apply filter_In in Hs. now apply Hu.
  - (* logout *)
    destruct (authMiddleware cookie now (authDB sv)) as [s auth1] eqn:Ha.
    assert (H1 : userDB auth1 = userDB (authDB sv)).
    { change auth1 with (snd (s, auth1)). rewrite <- Ha.
      apply authMiddleware_users. }
    assert (H2 : no_UserId auth1).
    { intros x Hx. apply Hu.
      apply (authMiddleware_sessions cookie now). now rewrite Ha. }
    unfold AuthRoutes.logout.
    destruct (sent s); [simpl; now rewrite H1 |].
    destruct authorization as [[| sessionId] |]; simpl;
      try (now rewrite H1).
    split; [now rewrite H1 |].
    intros x Hx. simpl in Hx. apply filter_In in Hx. now apply H2.
  - (* change-role *)
    destruct (authMiddleware cookie now (authDB sv)) as [s auth1] eqn:Ha.
    assert (H1 : userDB auth1 = userDB (authDB sv)).
    { change auth1 with (snd (s, auth1)). rewrite <- Ha.
      apply authMiddleware_users. }
    assert (H2 : no_UserId auth1).
    { intros x Hx. apply Hu.
      apply (authMiddleware_sessions cookie now). now rewrite Ha. }
    destruct (AuthRoutes.change_role userId newRole s (userDB auth1))
      as [resp users'] eqn:Hc.
    simpl. split; [| exact H2].
    change users' with (snd (resp, users')). rewrite <- Hc.
    apply change_role_no_Enterprise. now rewrite H1.
  - (* enterprise creation *)
    destruct (authMiddleware cookie now (authDB sv)) as [s auth1] eqn:Ha.
    assert (H1 : userDB auth1 = userDB (authDB sv)).
    { change auth1 with (snd (s, auth1)). rewrite <- Ha.
      apply authMiddleware_users. }
    assert (H2 : no_UserId auth1).
    { intros x Hx. apply Hu.
      apply (authMiddleware_sessions cookie now). now rewrite Ha. }
    assert (H3 : forall user, s <> ValidSession (Some user)).
    { intros user. change s with (fst (s, auth1)). rewrite <- Ha.
      now apply authMiddleware_no_user. }
    destruct (EnterpriseRoutes.create username password _ sheet s
                                      (userDB auth1))
      as [resp users'] eqn:Hc.
    simpl. split; [| exact H2].
    change users' with (snd (resp, users')). rewrite <- Hc.
    rewrite create_without_user; trivial. now rewrite H1.
  - (* a queue route *)
    destruct (authMiddleware cookie now (authDB sv)) as [s auth1] eqn:Ha.
    destruct (handle s r (queueDB sv)) as [resp queues'].
    simpl. split.
    + change auth1 with (snd (s, auth1)). rewrite <- Ha.
      now rewrite authMiddleware_users.
    + intros x Hx. apply Hu.
      apply (authMiddleware_sessions cookie now). now rewrite Ha.
Qed.

Lemma run_calls_keeps calls : forall sv,
  no_Enterprise (userDB (authDB sv)) /\ no_UserId (authDB sv) ->
  no_Enterprise (userDB (authDB (run_calls pbkdf2Sync calls sv))) /\
  no_UserId (authDB (run_calls pbkdf2Sync calls sv)).
Proof.
  induction calls as [| c rest IH]; intros sv Hsv; simpl; [exact Hsv |].
  apply IH. now apply serve_keeps.
Qed.

Lemma started_server_keeps hashed :
  no_Enterprise (userDB (authDB (started_server hashed))) /\
  no_UserId (authDB (started_server hashed)).
Proof.
  split.
  - intros u Hu. simpl in Hu. destruct Hu as [<- | []]. discriminate.
  - intros s [].
Qed.

(** A queue call where no session carries a [UserId]: the handler is
    not reached. *)
Lemma queue_call_unauthorized cookie now r sv :
  no_UserId (authDB sv) ->
  statusCode (fst (serve pbkdf2Sync (QueueCall cookie now r) sv)) = 401 /\
  queueDB (snd (serve pbkdf2Sync (QueueCall cookie now r) sv))
  = queueDB sv.
Proof.
  intros Hu. cbn [serve].
  pose proof (authMiddleware_no_user cookie now (authDB sv) Hu) as Hs.
  destruct (authMiddleware cookie now (authDB sv)) as [s auth1].
  simpl in Hs.
  assert (H : exists resp, handle s r (queueDB sv) = (resp, queueDB sv) /\
                           statusCode resp = 401).
  { destruct s as [ | | | | [user |]];
      try (destruct r; eexists; split; reflexivity).
    now destruct (Hs user). }
  destruct H as [resp [-> Hc]]. now split.
Qed.

End ServerLemmas.

(** C10.  A user the public register route creates is a Participant,
    whatever role the client supplied.  change-role answers 200 to an
    Admin caller only and for the new roles 'Admin' and 'Organizer'
    only, otherwise it changes nothing, and the role it writes is one
    of these two.  And no sequence of calls of the API leaves a user
    whose role is Enterprise: not on a server started on empty tables,
    and not on any server without Enterprise users whose session rows
    are as [login] creates them. *)
Theorem C10_register_change_role_no_Enterprise :
  (forall username password role hashed db u,
     In u (users (snd (AuthRoutes.register username password role
                                           hashed db))) ->
     In u (users db) \/ User.role u = Participant)
  /\
  (forall userId newRole s db,
     (statusCode (fst (AuthRoutes.change_role userId newRole s db)) = 200 ->
      (exists caller,
         s = ValidSession (Some caller) /\ User.role caller = Admin) /\
      (newRole = "Admin"%string \/ newRole = "Organizer"%string)) /\
     (statusCode (fst (AuthRoutes.change_role userId newRole s db)) <> 200 ->
      snd (AuthRoutes.change_role userId newRole s db) = db) /\
     (forall u,
        In u (users (snd (AuthRoutes.change_role userId newRole s db))) ->
        In u (users db) \/ User.role u = Admin \/ User.role u = Organizer))
  /\
  (forall pbkdf2Sync hashed calls u,
     In u (users (userDB (authDB (run_calls pbkdf2Sync calls
                                            (started_server hashed))))) ->
     User.role u <> Enterprise)
  /\
  (forall pbkdf2Sync calls sv,
     no_Enterprise (userDB (authDB sv)) -> no_UserId (authDB sv) ->
     no_Enterprise (userDB (authDB (run_calls pbkdf2Sync calls sv)))).
Proof.
  split; [| split; [| split]].
  - intros username password role hashed db u Hu.
    destruct (register_creates_Participant username password role hashed db)
      as [H | [v [H Hv]]]; rewrite H in Hu; [now left |].
    apply in_app_or in Hu. destruct Hu as [Hu | [<- | []]];
      [now left | now right].
  - intros userId newRole s db.
    destruct (change_role_only_Admin_Organizer userId newRole s db)
      as [H1 H2].
    split; [exact H1 | split; [exact H2 |]].
    intros u. apply change_role_roles.
  - intros pbkdf2Sync hashed calls.
    apply (run_calls_keeps pbkdf2Sync calls (started_server hashed)).
    apply started_server_keeps.
  - intros pbkdf2Sync calls sv He Hu.
    now apply (run_calls_keeps pbkdf2Sync calls sv).
Qed.

Lemma C10_witness :
  no_Enterprise
    (userDB (authDB
       (run_calls sample_pbkdf2
          [PostLogin "admin" "admin123" 100 100;
           PostEnterpriseCreate (Some (Uuid 1%nat)) 200
                                "acme" "pw" "s2" None;
           PostRegister "eve" "pw" (Some "Enterprise"%string) "s3"]
          server_sample))).
Proof.
  apply (proj2 (proj2 (proj2 C10_register_change_role_no_Enterprise))
           sample_pbkdf2
           [PostLogin "admin" "admin123" 100 100;
            PostEnterpriseCreate (Some (Uuid 1%nat)) 200
                                 "acme" "pw" "s2" None;
            PostRegister "eve" "pw" (Some "Enterprise"%string) "s3"]
           server_sample).
  - intros u Hu. vm_compute in Hu.
    destruct Hu as [<- | [<- | []]]; discriminate.
  - intros s Hs. vm_compute in Hs.
    destruct Hs as [<- | []]. reflexivity.
Defined.

(** ** The user table *)

Section UserTable.

Lemma find_unique {A : Type} (key : A -> Id) (l : list A) (x : A) :
  NoDup (map key l) -> In x l ->
  find (fun y => Nat.eqb (key y) (key x)) l = Some x.
Proof.
  intros Hnd Hin.
  destruct (find _ l) as [y |] eqn:Hf.
  - apply find_some in Hf. destruct Hf as [Hy Hk].
    apply Nat.eqb_eq in Hk.
    now rewrite (NoDup_key_eq key l y x Hnd Hy Hin Hk).
  - pose proof (find_none _ _ Hf x Hin) as Hn. simpl in Hn.
    now rewrite Nat.eqb_refl in Hn.
Qed.

Lemma register_well_formed username hashed role db userId db' :
  users_well_formed db ->
  Auth.register username hashed role db = inr (userId, db') ->
  users_well_formed db'.
Proof.
  intros [Hn [Hi Hb]]. unfold Auth.register.
  destruct (find _ (users db)) eqn:Hf; [discriminate |].
  intros [= _ <-]. unfold users_well_formed. simpl. split; [| split].
  - rewrite map_app. apply NoDup_app; trivial.
    + simpl. constructor; [intros [] | constructor].
    + intros a Ha [<- | []]. apply in_map_iff in Ha.
      destruct Ha as [x [Hx Hin]].
      pose proof (find_none _ _ Hf x Hin) as Hnone. simpl in Hnone, Hx.
      rewrite Hx, String.eqb_refl in Hnone. discriminate.
  - rewrite map_app. apply NoDup_app; trivial.
    + simpl. constructor; [intros [] | constructor].
    + intros a Ha [<- | []]. apply in_map_iff in Ha.
      destruct Ha as [x [Hx Hin]]. apply Hb in Hin. simpl in Hx. lia.
  - intros u Hu. apply in_app_or in Hu.
    destruct Hu as [Hu | [<- | []]]; [apply Hb in Hu; lia | simpl; lia].
Qed.

Lemma changeUserRole_well_formed userId r db db' :
  users_well_formed db ->
  Auth.changeUserRole userId r db = inr db' ->
  users_well_formed db'.
Proof.
  intros [Hn [Hi Hb]]. unfold Auth.changeUserRole.
  destruct (find _ (users db)) as [user |] eqn:Hf; [| discriminate].
  intros [= <-]. unfold users_well_formed. simpl.
  apply find_some in Hf. destruct Hf as [Hin _].
  assert (Hmap : forall {B : Type} (f : User.t -> B) u',
             f u' = f user ->
             map f (map (fun u => if Nat.eqb (User.id u) (User.id user)
                                  then u' else u) (users db))
             = map f (users db)).
  { intros B f u' Hfu. rewrite map_map. apply map_ext_in.
    intros x Hx. destruct (Nat.eqb _ _) eqn:Hk; [| reflexivity].
    apply Nat.eqb_eq in Hk.
    now rewrite (NoDup_key_eq User.id _ x user Hi Hx Hin Hk). }
  split; [| split].
  - now rewrite Hmap.
  - now rewrite Hmap.
  - intros u Hu. apply in_map_iff in Hu. destruct Hu as [x [Hxu Hx]].
    destruct (Nat.eqb _ _) in Hxu; subst u; [| now apply Hb].
    simpl. now apply Hb.
Qed.

Lemma handle_user_well_formed s r db :
  users_well_formed db -> users_well_formed (snd (handle_user s r db)).
Proof.
  intros Hdb. destruct r as [u p role h | uid newRole | u p h sheet];
    simpl.
  - unfold AuthRoutes.register.
    destruct (Auth.register u h Participant db) as [m | [uid db']] eqn:Hr;
      [exact Hdb |].
    simpl. now apply register_well_formed in Hr.
  - unfold AuthRoutes.change_role.
    destruct (sent s) as [resp | [caller |]]; [exact Hdb | | exact Hdb].
    destruct (negb _); [exact Hdb |].
    destruct (AuthRoutes.accepted_newRole newRole); [| exact Hdb].
    destruct (Auth.changeUserRole uid _ db) as [m | db'] eqn:Hc;
      [exact Hdb |].
    simpl. now apply changeUserRole_well_formed in Hc.
  - unfold EnterpriseRoutes.create.
    destruct (sent s) as [resp | req_user]; [exact Hdb |].
    destruct (EnterpriseRoutes.checkRole _ _); [exact Hdb |].
    destruct (Auth.register u h Enterprise db) as [m | [uid db']] eqn:Hr;
      [exact Hdb |].
    apply register_well_formed in Hr; [| exact Hdb].
    destruct sheet; exact Hr.
Qed.

Lemma startServer_well_formed hashed db :
  users_well_formed db -> users_well_formed (startServer hashed db).
Proof.
  intros Hdb. unfold startServer.
  destruct (find _ (users db)); [exact Hdb |].
  destruct (Auth.register _ hashed Admin db) as [m | [uid db']] eqn:Hr;
    [exact Hdb |].
  now apply register_well_formed in Hr.
Qed.

End UserTable.

(** X13.  After start-up and any sequence of register, change-role and
    enterprise-creation calls, no two users share a username and no two
    share a key: [Auth.register] refuses a username that exists, and
    change-role rewrites the role only. *)
Theorem usernames_unique :
  forall (hashed : string * string) (reqs : list (Session * UserRequest)),
    NoDup (map User.username
               (users (run_users reqs
                         (startServer hashed (mkUserDB [] 0%nat))))) /\
    NoDup (map User.id
               (users (run_users reqs
                         (startServer hashed (mkUserDB [] 0%nat))))).
Proof.
  intros hashed reqs.
  assert (H : forall db, users_well_formed db ->
                         users_well_formed (run_users reqs db)).
  { induction reqs as [| [s r] rest IH]; intros db Hdb; simpl;
      [exact Hdb |].
    apply IH. now apply handle_user_well_formed. }
  assert (H0 : users_well_formed (mkUserDB [] 0%nat)).
  { split; [constructor | split; [constructor | intros u []]]. }
  destruct (H _ (startServer_well_formed hashed _ H0)) as [Hn [Hi _]].
  now split.
Qed.

(** X14.  Start-up is idempotent: running [startServer] again, with any
    fresh password hash, changes nothing.  And after it the table
    holds an Admin, unless the name "admin" was already taken by a user
    who is not one. *)
Theorem startServer_idempotent :
  forall (hashed hashed' : string * string) (db : UserDB),
    startServer hashed' (startServer hashed db) = startServer hashed db /\
    ((exists u, In u (users (startServer hashed db)) /\
                User.role u = Admin)
     \/
     (exists u, In u (users db) /\ User.username u = "admin"%string /\
                User.role u <> Admin)).
Proof.
  intros hashed hashed' db.
  destruct (find (fun u => Role_eqb (User.role u) Admin) (users db))
    as [a |] eqn:Hf.
  - assert (E : startServer hashed db = db)
      by (unfold startServer; now rewrite Hf).
    rewrite E. split.
    + unfold startServer. now rewrite Hf.
    + left. apply find_some in Hf. destruct Hf as [Hin Hr].
      apply Role_eqb_eq in Hr. now exists a.
  - destruct (find (fun u => String.eqb (User.username u) "admin")
                   (users db)) as [t |] eqn:Hn.
    + assert (E : startServer hashed db = db)
        by (unfold startServer, Auth.register; now rewrite Hf, Hn).
      rewrite E. split.
      * unfold startServer, Auth.register. now rewrite Hf, Hn.
      * right. apply find_some in Hn. destruct Hn as [Hin Hname].
        apply String.eqb_eq in Hname. exists t.
        repeat split; trivial. intros Hr.
        pose proof (find_none _ _ Hf t Hin) as Hnone. simpl in Hnone.
        rewrite Hr in Hnone. discriminate.
    + assert (E : startServer hashed db
                  = mkUserDB (users db
                              ++ [User.mk (nextUserId db) "admin"
                                          (fst hashed) (snd hashed) Admin])
                             (S (nextUserId db)))
        by (unfold startServer, Auth.register; now rewrite Hf, Hn).
      rewrite E. split.
      * unfold startServer. simpl.
        rewrite (find_app_last _ (users db)
                   (User.mk (nextUserId db) "admin" (fst hashed)
                            (snd hashed) Admin));
          [reflexivity | | reflexivity].
        intros x Hx. exact (find_none _ _ Hf x Hx).
      * left.
        exists (User.mk (nextUserId db) "admin" (fst hashed)
                        (snd hashed) Admin).
        split; [| reflexivity].
        simpl. apply in_or_app. right. left. reflexivity.
Qed.

(** ** Sessions *)

Section Login.

Variable pbkdf2Sync : string -> string -> string.

(** X15.  A user who registered with a password can log in with it:
    [login] right after [register] succeeds, for that user, with a
    session that expires 24 hours after it was created.  A password
    whose derived key differs is refused with 'Invalid username or
    password'. *)
Theorem register_then_login :
  forall (username password salt : string) (role : Role)
         (users0 users1 : UserDB) (userId : Id)
         (sessions0 : list SessionRow.t) (n : Id) (now now' : Z),
    Auth.register username (hashPassword pbkdf2Sync salt password) role
                  users0 = inr (userId, users1) ->
    (exists session db',
       login pbkdf2Sync username password now now'
             (mkAuthDB users1 sessions0 n)
       = inr (session, mkUserInfo userId username role, db') /\
       SessionRow.userId session = userId /\
       SessionRow.expiresAt session = now' + 86400000 /\
       In session (sessions db'))
    /\
    (forall password',
       pbkdf2Sync password' salt <> pbkdf2Sync password salt ->
       login pbkdf2Sync username password' now now'
             (mkAuthDB users1 sessions0 n)
       = inl "Invalid username or password"%string).
Proof.
  intros username password salt role users0 users1 userId sessions0 n
         now now'.
  unfold Auth.register.
  destruct (find _ (users users0)) eqn:Hf; [discriminate |].
  intros [= <- <-].
  assert (Hfind : find (fun u => String.eqb (User.username u) username)
                       (users0.(users)
                        ++ [User.mk (nextUserId users0) username
                              (pbkdf2Sync password salt) salt role])
                  = Some (User.mk (nextUserId users0) username
                            (pbkdf2Sync password salt) salt role)).
  { apply find_app_last.
    - intros x Hx. exact (find_none _ _ Hf x Hx).
    - simpl. apply String.eqb_refl. }
  split.
  - unfold login. simpl. rewrite Hfind.
    unfold verifyPassword. simpl. rewrite String.eqb_refl. simpl.
    eexists. eexists. split; [reflexivity |].
    split; [reflexivity |]. split; [reflexivity |].
    simpl. apply in_or_app. right. now left.
  - intros password' Hne. unfold login. simpl. rewrite Hfind.
    unfold verifyPassword. simpl.
    destruct (String.eqb _ _) eqn:He; [| reflexivity].
    apply String.eqb_eq in He. congruence.
Qed.

(** X16.  The session [login] returns does not bring its user to the
    routes: [login] writes the user's key under [userId], the
    middleware joins the user on [UserId], so with the session's id as
    cookie [authMiddleware] calls [next()] with [req.user] null at any
    time up to [expiresAt]; later it answers 'Session expired' and
    destroys the session. *)
Theorem login_session_leaves_req_user_null :
  forall (username password : string) (now now' : Z) (db db' : AuthDB)
         (session : SessionRow.t) (info : UserInfo),
    auth_well_formed db ->
    login pbkdf2Sync username password now now' db
    = inr (session, info, db') ->
    (forall t, t <= SessionRow.expiresAt session ->
       authMiddleware (Some (Uuid (SessionRow.id session))) t db'
       = (ValidSession None, db'))
    /\
    (forall t, SessionRow.expiresAt session < t ->
       fst (authMiddleware (Some (Uuid (SessionRow.id session))) t db')
       = ExpiredSession /\
       find_session (SessionRow.id session)
         (snd (authMiddleware (Some (Uuid (SessionRow.id session))) t db'))
       = None).
Proof.
  intros username password now now' db db' session info [Hfresh Hnd].
  unfold login.
  destruct (find _ (users (userDB db))) as [user |] eqn:Hu;
    [| discriminate].
  destruct (negb _); [discriminate |].
  intros [= <- <- <-].
  set (kept := filter _ (sessions db)).
  set (session := SessionRow.mk _ _ _ _).
  assert (Hs : forall d n,
             find_session (nextSessionId db)
               (mkAuthDB d (kept ++ [session]) n) = Some session).
  { intros d n. unfold find_session. simpl. apply find_app_last.
    - intros x Hx. apply filter_In in Hx. destruct Hx as [Hx _].
      apply Hfresh in Hx. apply Nat.eqb_neq. lia.
    - simpl. apply Nat.eqb_refl. }
  split.
  - intros t Ht. unfold authMiddleware.
    simpl SessionRow.id. rewrite Hs.
    destruct (SessionRow.expiresAt session <? t) eqn:Hlt;
      [apply Z.ltb_lt in Hlt; lia |].
    reflexivity.
  - intros t Ht. unfold authMiddleware.
    simpl SessionRow.id. rewrite Hs.
    apply Z.ltb_lt in Ht. rewrite Ht. simpl. split; [reflexivity |].
    unfold find_session. simpl. apply find_filter_out.
Qed.

(** X17.  [login] destroys every session that has expired: afterwards
    the session table holds the new session and those older sessions
    that had not expired when the clock was read; the user table is
    untouched. *)
Theorem login_purges_expired :
  forall (username password : string) (now now' : Z) (db db' : AuthDB)
         (session : SessionRow.t) (info : UserInfo),
    login pbkdf2Sync username password now now' db
    = inr (session, info, db') ->
    userDB db' = userDB db /\
    forall s, In s (sessions db') <->
              s = session \/
              (In s (sessions db) /\ now <= SessionRow.expiresAt s).
Proof.
  intros username password now now' db db' session info. unfold login.
  destruct (find _ (users (userDB db))) as [user |]; [| discriminate].
  destruct (negb _); [discriminate |].
  intros [= <- <- <-]. split; [reflexivity |].
  intros s. simpl. rewrite in_app_iff, filter_In, negb_true_iff, Z.ltb_ge.
  simpl. split.
  - intros [H | [H | []]]; [now right | now left].
  - intros [H | H]; [right; left; congruence | now left].
Qed.

End Login.

Lemma register_then_login_witness :
  exists session db',
    login sample_pbkdf2 "erin" "secret" 100 101
          (mkAuthDB (mkUserDB (users (userDB auth_sample)
                               ++ [User.mk 2%nat "erin" "s7$secret" "s7"
                                           Participant]) 3%nat)
                    [] 0%nat)
    = inr (session, mkUserInfo 2%nat "erin" Participant, db').
Proof.
  destruct (register_then_login sample_pbkdf2 "erin" "secret" "s7"
              Participant (userDB auth_sample)
              (mkUserDB (users (userDB auth_sample)
                         ++ [User.mk 2%nat "erin" "s7$secret" "s7"
                                     Participant]) 3%nat)
              2%nat [] 0%nat 100 101 eq_refl)
    as [[session [db' [H _]]] _].
  exists session, db'. exact H.
Defined.

Lemma login_session_leaves_req_user_null_witness :
  authMiddleware (Some (Uuid 1%nat)) 6000
    (mkAuthDB (userDB auth_sample)
              [SessionRow.mk 1%nat 1%nat None (5001 + 86400000)] 2%nat)
  = (ValidSession None,
     mkAuthDB (userDB auth_sample)
              [SessionRow.mk 1%nat 1%nat None (5001 + 86400000)] 2%nat).
Proof.
  assert (Hwf : auth_well_formed auth_sample).
  { split.
    - intros s [<- | []]. simpl. lia.
    - simpl. repeat constructor; simpl; intuition discriminate. }
  destruct (login_session_leaves_req_user_null sample_pbkdf2 "dana" "pw"
              5001 5001 auth_sample _ _ _ Hwf eq_refl) as [H _].
  assert (Ht : 6000 <= 5001 + 86400000) by lia.
  exact (H 6000 Ht).
Defined.

Lemma login_purges_expired_witness :
  In (SessionRow.mk 1%nat 1%nat None (5001 + 86400000))
     [SessionRow.mk 1%nat 1%nat None (5001 + 86400000)].
Proof.
  apply (proj2 (login_purges_expired sample_pbkdf2 "dana" "pw"
                  5001 5001 auth_sample _ _ _ eq_refl)).
  left. reflexivity.
Defined.

(** X18.  [authMiddleware] calls [next()] only on a session that
    exists and has not expired, and then it leaves the tables alone: no
    cookie, an unknown session id or an expired session never passes.
    The user it passes on, if any, is the one the session names under
    [UserId]. *)
Theorem next_only_for_live_sessions :
  forall (cookie : option SessionCookie) (now : Z) (db db' : AuthDB)
         (req_user : option User.t),
    authMiddleware cookie now db = (ValidSession req_user, db') ->
    db' = db /\
    exists session,
      In session (sessions db) /\
      cookie = Some (Uuid (SessionRow.id session)) /\
      now <= SessionRow.expiresAt session /\
      forall user, req_user = Some user ->
                   SessionRow.UserId session = Some (User.id user) /\
                   In user (users (userDB db)).
Proof.
  intros cookie now db db' req_user. unfold authMiddleware.
  destruct cookie as [[| sid] |]; try discriminate.
  destruct (find_session sid db) as [session |] eqn:Hs; [| discriminate].
  destruct (SessionRow.expiresAt session <? now) eqn:Hlt; [discriminate |].
  intros [= <- <-]. split; [reflexivity |].
  apply find_some in Hs. destruct Hs as [Hin Hid].
  apply Nat.eqb_eq in Hid. apply Z.ltb_ge in Hlt.
  exists session.
  split; [exact Hin | split; [congruence | split; [exact Hlt |]]].
  intros user Huser. unfold included_User in Huser.
  destruct (SessionRow.UserId session) as [pk |]; [| discriminate].
  apply find_some in Huser. destruct Huser as [Hu Hk].
  apply Nat.eqb_eq in Hk. split; [congruence | exact Hu].
Qed.

Lemma next_only_for_live_sessions_witness :
  exists session,
    In session (sessions auth_sample) /\
    4000 <= SessionRow.expiresAt session.
Proof.
  destruct (next_only_for_live_sessions (Some (Uuid 0%nat)) 4000
              auth_sample auth_sample None eq_refl)
    as [_ [session [Hin [_ [Ht _]]]]].
  exists session. split; [exact Hin | exact Ht].
Defined.

(** X19.  After [logout] the session no longer passes: the middleware
    answers 'Invalid session' for its id, at any time.  All other
    sessions are found as before. *)
Theorem logout_invalidates :
  forall (sessionId : Id) (now : Z) (db : AuthDB),
    authMiddleware (Some (Uuid sessionId)) now (logout sessionId db)
    = (InvalidSession, logout sessionId db)
    /\
    (forall other, other <> sessionId ->
       find_session other (logout sessionId db) = find_session other db).
Proof.
  intros sessionId now db. split.
  - unfold authMiddleware, find_session, logout, destroy_session.
    simpl. now rewrite find_filter_out.
  - intros other Hne. unfold find_session, logout, destroy_session. simpl.
    now apply find_filter_other.
Qed.

Lemma logout_invalidates_witness :
  find_session 0%nat (logout 3%nat auth_sample)
  = find_session 0%nat auth_sample.
Proof.
  apply (proj2 (logout_invalidates 3%nat 0 auth_sample) 0%nat).
  discriminate.
Defined.

(** X20.  [Auth.validateSession] and [authMiddleware] leave the same
    tables behind and refuse the same sessions: both answer 'Invalid
    session' for an unknown id and both destroy an expired session.
    They part on a live session: [validateSession] finds the user under
    [session.userId], the middleware under [UserId], so for a session
    as [login] creates it the first returns the user and the second
    passes null. *)
Theorem validateSession_and_middleware :
  forall (sessionId : Id) (now : Z) (db : AuthDB),
    snd (validateSession sessionId now db)
    = snd (authMiddleware (Some (Uuid sessionId)) now db)
    /\
    (fst (validateSession sessionId now db) = inl "Invalid session"%string
     <-> fst (authMiddleware (Some (Uuid sessionId)) now db)
         = InvalidSession)
    /\
    (fst (validateSession sessionId now db) = inl "Session expired"%string
     <-> fst (authMiddleware (Some (Uuid sessionId)) now db)
         = ExpiredSession)
    /\
    (forall session user,
       find_session sessionId db = Some session ->
       now <= SessionRow.expiresAt session ->
       SessionRow.UserId session = None ->
       find_user (SessionRow.userId session) db = Some user ->
       fst (validateSession sessionId now db) = inr (info_of user) /\
       fst (authMiddleware (Some (Uuid sessionId)) now db)
       = ValidSession None).
Proof.
  intros sessionId now db. unfold validateSession, authMiddleware.
  destruct (find_session sessionId db) as [session |].
  - destruct (SessionRow.expiresAt session <? now) eqn:Hlt.
    + split; [reflexivity |]. simpl.
      split; [split; discriminate |].
      split; [split; reflexivity |].
      intros s u [= <-] Ht. apply Z.ltb_lt in Hlt. lia.
    + destruct (find_user (SessionRow.userId session) db) as [found |]
        eqn:Hfu; simpl.
      * split; [reflexivity |].
        split; [split; discriminate |].
        split; [split; discriminate |].
        intros s u Hs _ Hnone Hu. injection Hs as Hs. subst s.
        rewrite Hfu in Hu. injection Hu as Hu. subst u.
        unfold included_User. now rewrite Hnone.
      * split; [reflexivity |].
        split; [split; discriminate |].
        split; [split; discriminate |].
        intros s u Hs _ _ Hu. injection Hs as Hs. subst s.
        rewrite Hfu in Hu. discriminate Hu.
  - split; [reflexivity |]. simpl.
    split; [split; reflexivity |].
    split; [split; discriminate |].
    intros s u H. discriminate H.
Qed.

Lemma validateSession_and_middleware_witness :
  fst (validateSession 0%nat 4000 auth_sample)
  = inr (mkUserInfo 1%nat "dana" Participant) /\
  fst (authMiddleware (Some (Uuid 0%nat)) 4000 auth_sample)
  = ValidSession None.
Proof.
  destruct (validateSession_and_middleware 0%nat 4000 auth_sample)
    as [_ [_ [_ H]]].
  apply (H (SessionRow.mk 0%nat 1%nat None 5000)
           (User.mk 1%nat "dana" "s9$pw" "s9" Participant));
    [reflexivity | simpl; lia | reflexivity | reflexivity].
Defined.

(** ** The routes behind the middleware *)

Section Guards.

Import Orm.

Lemma stand_handler_status enterpriseId status cp db :
  statusCode (fst (QueuesRoutes.stand_handler enterpriseId status cp db))
  = 200 \/
  statusCode (fst (QueuesRoutes.stand_handler enterpriseId status cp db))
  = 500.
Proof.
  unfold QueuesRoutes.stand_handler.
  destruct (findOne_StandQueue enterpriseId db) as [standQueue |].
  - destruct cp as [v |]; [| now left].
    destruct (update_StandQueue _ db); [now right | now left].
  - destruct (create_StandQueue _ _ _ db) as [e | [s db']];
      [now right | now left].
Qed.

(** A queue request answered in the 400s wrote nothing to the queue
    tables. *)
Lemma handle_rejected s r db :
  400 <= statusCode (fst (handle s r db)) < 500 ->
  snd (handle s r db) = db.
Proof.
  destruct r as [e st cp | e now | q now | q | e now | e]; cbn [handle].
  - unfold QueuesRoutes.stand.
    destruct (guarded_cases (RoleArray [Admin; Organizer])
                (fun _ => QueuesRoutes.stand_handler e st cp) s db)
      as [[resp [-> _]] | [user [_ ->]]]; [reflexivity |].
    destruct (stand_handler_status e st cp db) as [-> | ->]; lia.
  - intros _. apply queues_join_keeps.
  - unfold QueuesRoutes.complete.
    destruct (guarded_cases (RoleArray [Admin; Organizer])
                (fun _ => QueuesRoutes.complete_handler q now) s db)
      as [[resp [-> _]] | [user [_ ->]]]; [reflexivity |].
    destruct (findByPk_QueueEntry q db) as [entry |] eqn:H.
    + rewrite (complete_handler_found _ _ _ _ H). simpl. lia.
    + now rewrite (complete_handler_absent _ _ _ H).
  - unfold QueuesRoutes.uncomplete.
    destruct (guarded_cases (RoleArray [Admin; Organizer])
                (fun _ => QueuesRoutes.uncomplete_handler q) s db)
      as [[resp [-> _]] | [user [_ ->]]]; [reflexivity |].
    destruct (findByPk_QueueEntry q db) as [entry |] eqn:H.
    + rewrite (uncomplete_handler_found _ _ _ H). simpl. lia.
    + now rewrite (uncomplete_handler_absent _ _ H).
  - intros _. apply enterprise_join_keeps.
  - intros _. apply leave_keeps.
Qed.

End Guards.

Section Served.

Variable pbkdf2Sync : string -> string -> string.

(** X1.  Where no session row carries a [UserId], which is how [login]
    creates them, every request to a queue route is answered 401,
    whatever the role of the user who logged in, and the queue tables
    and the user table stay as they are.  On a live session the answer
    is the 'Unauthorized' of [checkRole] and nothing at all is
    written. *)
Theorem queue_routes_answer_401 :
  forall (sv : Server) (cookie : option SessionCookie) (now : Z)
         (r : Request),
    no_UserId (authDB sv) ->
    statusCode (fst (serve pbkdf2Sync (QueueCall cookie now r) sv)) = 401 /\
    queueDB (snd (serve pbkdf2Sync (QueueCall cookie now r) sv))
    = queueDB sv /\
    userDB (authDB (snd (serve pbkdf2Sync (QueueCall cookie now r) sv)))
    = userDB (authDB sv) /\
    (forall sessionId session,
       cookie = Some (Uuid sessionId) ->
       find_session sessionId (authDB sv) = Some session ->
       now <= SessionRow.expiresAt session ->
       serve pbkdf2Sync (QueueCall cookie now r) sv
       = (status_json 401 (MessageBody "Unauthorized"), sv)).
Proof.
  intros sv cookie now r Hu.
  destruct (queue_call_unauthorized pbkdf2Sync cookie now r sv Hu)
    as [H1 H2].
  split; [exact H1 | split; [exact H2 | split]].
  - cbn [serve].
    pose proof (authMiddleware_users cookie now (authDB sv)) as H.
    destruct (authMiddleware cookie now (authDB sv)) as [s auth1].
    destruct (handle s r (queueDB sv)) as [resp queues']. exact H.
  - intros sessionId session -> Hs Ht. cbn [serve].
    unfold authMiddleware. rewrite Hs.
    destruct (SessionRow.expiresAt session <? now) eqn:Hlt;
      [apply Z.ltb_lt in Hlt; lia |].
    apply find_some in Hs. destruct Hs as [Hin _].
    unfold included_User. rewrite (Hu session Hin).
    destruct sv as [a q]. destruct r; reflexivity.
Qed.

(** X2.  A request to a queue route that is answered in the 400s wrote
    nothing to the queue tables and nothing to the user table; the
    session table is as it was, unless the answer is 'Session expired',
    in which case the session the cookie names was destroyed. *)
Theorem rejection_mutates_nothing :
  forall (sv : Server) (cookie : option SessionCookie) (now : Z)
         (r : Request),
    400 <= statusCode (fst (serve pbkdf2Sync (QueueCall cookie now r) sv))
        < 500 ->
    queueDB (snd (serve pbkdf2Sync (QueueCall cookie now r) sv))
    = queueDB sv /\
    userDB (authDB (snd (serve pbkdf2Sync (QueueCall cookie now r) sv)))
    = userDB (authDB sv) /\
    (authDB (snd (serve pbkdf2Sync (QueueCall cookie now r) sv))
     = authDB sv
     \/
     (fst (serve pbkdf2Sync (QueueCall cookie now r) sv)
      = status_json 401 (ErrorBody "Session expired") /\
      exists sessionId,
        cookie = Some (Uuid sessionId) /\
        authDB (snd (serve pbkdf2Sync (QueueCall cookie now r) sv))
        = destroy_session sessionId (authDB sv))).
Proof.
  intros sv cookie now r. cbn [serve].
  pose proof (authMiddleware_users cookie now (authDB sv)) as Husers.
  pose proof (authMiddleware_tables cookie now (authDB sv)) as Htables.
  destruct (authMiddleware cookie now (authDB sv)) as [s auth1].
  pose proof (handle_rejected s r (queueDB sv)) as Hq.
  simpl in Husers, Htables.
  destruct (handle s r (queueDB sv)) as [resp queues'] eqn:Hh.
  simpl in *. intros Hc.
  split; [now apply Hq | split; [exact Husers |]].
  destruct Htables as [-> | [-> [sessionId [-> ->]]]]; [now left |].
  right. split; [| now exists sessionId].
  destruct r; simpl in Hh; now injection Hh as <- _.
Qed.

(** X3.  On a server started on empty tables no sequence of calls of
    the API writes a queue table: no stand and no entry is ever
    created, because no call gets past the guards of a queue route. *)
Theorem api_never_writes_the_queue_tables :
  forall (hashed : string * string) (calls : list Call),
    queueDB (run_calls pbkdf2Sync calls (started_server hashed)) = emptyDB.
Proof.
  intros hashed calls.
  assert (H : forall sv,
             no_UserId (authDB sv) ->
             queueDB (run_calls pbkdf2Sync calls sv) = queueDB sv).
  { induction calls as [| c rest IH]; intros sv Hu; simpl;
      [reflexivity |].
    assert (Hk : no_UserId (authDB (snd (serve pbkdf2Sync c sv))) /\
                 queueDB (snd (serve pbkdf2Sync c sv)) = queueDB sv).
    { destruct c as [username password role salt
                    | username password now now'
                    | cookie now authorization
                    | cookie now userId newRole
                    | cookie now username password salt sheet
                    | cookie now r].
      - cbn [serve].
        destruct (AuthRoutes.register _ _ _ _ _). now split.
      - cbn [serve]. unfold AuthRoutes.login, login.
        destruct (find _ (users (userDB (authDB sv)))) as [user |];
          [| now split].
        destruct (negb _); [now split |].
        simpl. split; [| reflexivity].
        intros s Hs. apply in_app_or in Hs.
        destruct Hs as [Hs | [<- | []]]; [| reflexivity].
        apply filter_In in Hs. now apply Hu.
      - cbn [serve].
        pose proof (authMiddleware_sessions cookie now (authDB sv)) as Hs.
        destruct (authMiddleware cookie now (authDB sv)) as [s auth1].
        simpl in Hs. unfold AuthRoutes.logout.
        destruct (sent s);
          [simpl; split; [intros x Hx; now apply Hu, Hs | reflexivity] |].
        destruct authorization as [[| sessionId] |]; simpl;
          (split; [| reflexivity]); intros x Hx;
          try (now apply Hu, Hs).
        apply filter_In in Hx. now apply Hu, Hs.
      - cbn [serve].
        pose proof (authMiddleware_sessions cookie now (authDB sv)) as Hs.
        destruct (authMiddleware cookie now (authDB sv)) as [s auth1].
        destruct (AuthRoutes.change_role _ _ _ _).
        simpl in *. split; [| reflexivity].
        intros x Hx. now apply Hu, Hs.
      - cbn [serve].
        pose proof (authMiddleware_sessions cookie now (authDB sv)) as Hs.
        destruct (authMiddleware cookie now (authDB sv)) as [s auth1].
        destruct (EnterpriseRoutes.create _ _ _ _ _ _).
        simpl in *. split; [| reflexivity].
        intros x Hx. now apply Hu, Hs.
      - split.
        + cbn [serve].
          pose proof (authMiddleware_sessions cookie now (authDB sv))
            as Hs.
          destruct (authMiddleware cookie now (authDB sv)) as [s auth1].
          destruct (handle s r (queueDB sv)).
          simpl in *. intros x Hx. now apply Hu, Hs.
        + now apply queue_call_unauthorized. }
    destruct Hk as [Hk1 Hk2]. rewrite (IH _ Hk1). exact Hk2. }
  apply (H (started_server hashed)). intros s [].
Qed.

End Served.

Lemma queue_routes_answer_401_witness :
  serve sample_pbkdf2
        (QueueCall (Some (Uuid 0%nat)) 200 (StandReq "acme" None None))
        server_sample
  = (status_json 401 (MessageBody "Unauthorized"), server_sample).
Proof.
  assert (Hu : no_UserId (authDB server_sample)).
  { intros s [<- | []]. reflexivity. }
  destruct (queue_routes_answer_401 sample_pbkdf2 server_sample
              (Some (Uuid 0%nat)) 200 (StandReq "acme" None None) Hu)
    as [_ [_ [_ H]]].
  apply (H 0%nat (SessionRow.mk 0%nat 1%nat None (100 + 86400000)));
    [reflexivity | reflexivity | simpl; lia].
Defined.

Lemma rejection_mutates_nothing_witness :
  queueDB (snd (serve sample_pbkdf2
                  (QueueCall (Some (Uuid 0%nat)) (200 + 86400000)
                             (Complete 1%nat 300))
                  server_sample))
  = emptyDB.
Proof.
  apply (rejection_mutates_nothing sample_pbkdf2 server_sample
           (Some (Uuid 0%nat)) (200 + 86400000) (Complete 1%nat 300)).
  simpl. lia.
Defined.

(** * The session cookie *)

Section Splitting.

Open Scope string_scope.

Lemma append_assoc (a b c : string) : (a ++ b) ++ c = a ++ (b ++ c).
Proof. induction a as [| x a IH]; simpl; [reflexivity | now rewrite IH]. Qed.

Lemma append_nil_r (a : string) : a ++ "" = a.
Proof. induction a as [| x a IH]; simpl; [reflexivity | now rewrite IH]. Qed.

Lemma prefix_append (a rest : string) : String.prefix a (a ++ rest) = true.
Proof.
  induction a as [| x a IH]; simpl; [now destruct rest |].
  destruct (ascii_dec x x); [exact IH | congruence].
Qed.

Lemma free_of_append c (a b : string) :
  free_of c (a ++ b) = free_of c a && free_of c b.
Proof.
  induction a as [| x a IH]; simpl; [reflexivity |].
  now rewrite IH, andb_assoc.
Qed.

Variable c : ascii.
Variable sep' : string.

(** A piece without the separator's first character is read whole. *)
Lemma split_piece (p rest piece : string) :
  free_of c p = true ->
  split_from (String c sep') 0 piece (p ++ rest)
  = split_from (String c sep') 0 (piece ++ p) rest.
Proof.
  revert piece. induction p as [| x p IH]; intros piece Hp; simpl.
  - now rewrite append_nil_r.
  - simpl in Hp. apply andb_true_iff in Hp. destruct Hp as [Hx Hp].
    apply negb_true_iff in Hx. apply Ascii.eqb_neq in Hx.
    destruct (ascii_dec c x) as [E | _]; [congruence |].
    rewrite IH by exact Hp. now rewrite append_assoc.
Qed.

Lemma split_skip (s rest piece : string) :
  split_from (String c sep') (String.length s) piece (s ++ rest)
  = split_from (String c sep') 0 piece rest.
Proof.
  induction s as [| x s IH]; simpl; [| exact IH].
  destruct rest; reflexivity.
Qed.

Lemma split_cons (p rest : string) :
  free_of c p = true ->
  split (String c sep') (p ++ String c sep' ++ rest)
  = p :: split (String c sep') rest.
Proof.
  intros Hp. unfold split. rewrite split_piece by exact Hp.
  simpl. destruct (ascii_dec c c) as [_ | N]; [| congruence].
  rewrite prefix_append. now rewrite split_skip.
Qed.

Lemma split_single (p : string) :
  free_of c p = true -> split (String c sep') p = [p].
Proof.
  intros Hp. unfold split. rewrite <- (append_nil_r p) at 1.
  now rewrite split_piece.
Qed.

(** Splitting undoes joining when no piece holds the separator's first
    character. *)
Lemma split_concat (parts : list string) :
  parts <> [] ->
  (forall p, In p parts -> free_of c p = true) ->
  split (String c sep') (String.concat (String c sep') parts) = parts.
Proof.
  induction parts as [| p parts IH]; intros Hne Hfree; [congruence |].
  destruct parts as [| q parts].
  - simpl. apply split_single. apply Hfree. now left.
  - change (String.concat (String c sep') (p :: q :: parts))
      with (p ++ String c sep' ++ String.concat (String c sep') (q :: parts)).
    rewrite split_cons by (apply Hfree; now left).
    rewrite IH; [reflexivity | discriminate |].
    intros x Hx. apply Hfree. now right.
Qed.

End Splitting.

Section CookieLemmas.

Open Scope string_scope.

Lemma prefix_cons (x y : ascii) (a b : string) :
  String.prefix (String x a) (String y b)
  = if Ascii.eqb x y then String.prefix a b else false.
Proof.
  cbn [String.prefix]. destruct (ascii_dec x y) as [-> | N].
  - now rewrite Ascii.eqb_refl.
  - apply Ascii.eqb_neq in N. now rewrite N.
Qed.

Lemma prefix_name (a n v : string) :
  free_of "=" a = true -> free_of "=" n = true ->
  String.prefix (a ++ "=") (n ++ "=" ++ v) = String.eqb n a.
Proof.
  revert n. induction a as [| x a IH]; intros n Ha Hn.
  - destruct n as [| y n]; [exact (prefix_append "=" v) |].
    cbn [free_of] in Hn. apply andb_true_iff in Hn. destruct Hn as [Hy _].
    apply negb_true_iff in Hy.
    cbn [append String.eqb]. rewrite prefix_cons.
    rewrite Ascii.eqb_sym, Hy. reflexivity.
  - cbn [free_of] in Ha. apply andb_true_iff in Ha. destruct Ha as [Hx Ha].
    apply negb_true_iff in Hx.
    destruct n as [| y n].
    + cbn [append String.eqb]. rewrite prefix_cons, Hx. reflexivity.
    + cbn [free_of] in Hn. apply andb_true_iff in Hn.
      destruct Hn as [_ Hn].
      cbn [append String.eqb]. rewrite prefix_cons.
      rewrite (Ascii.eqb_sym x y).
      destruct (Ascii.eqb y x); [now apply IH | reflexivity].
Qed.

Lemma find_map {A B : Type} (p : B -> bool) (f : A -> B) (l : list A) :
  find p (map f l) = option_map f (find (fun x => p (f x)) l).
Proof.
  induction l as [| x l IH]; simpl; [reflexivity |].
  destruct (p (f x)); [reflexivity | exact IH].
Qed.

Lemma find_ext_in {A : Type} (p q : A -> bool) (l : list A) :
  (forall x, In x l -> p x = q x) -> find p l = find q l.
Proof.
  intros H. induction l as [| x l IH]; simpl; [reflexivity |].
  rewrite (H x (or_introl eq_refl)).
  destruct (q x); [reflexivity |]. apply IH. intros y Hy. apply H. now right.
Qed.

Lemma plain_cookie_parts nv :
  plain_cookie nv = true ->
  free_of ";" (fst nv) = true /\ free_of "=" (fst nv) = true /\
  free_of ";" (snd nv) = true /\ free_of "=" (snd nv) = true.
Proof.
  unfold plain_cookie. rewrite !andb_true_iff. tauto.
Qed.

End CookieLemmas.

(** X21.  For a Cookie header made of name=value pairs joined by "; ",
    with names and values free of ';' and '=', the middleware reads the
    value of the first cookie named sessionId.  When there is no such
    cookie, or its value is empty, it answers 401 'No session
    provided'. *)
Theorem read_sessionId_of_cookie_header :
  forall (cookies : list (string * string)),
    forallb plain_cookie cookies = true ->
    read_sessionId (Some (cookie_header cookies))
    = match find (fun nv => String.eqb (fst nv) "sessionId") cookies with
      | Some (_, value) =>
          if String.eqb value ""
          then inl (status_json 401 (ErrorBody "No session provided"))
          else inr value
      | None => inl (status_json 401 (ErrorBody "No session provided"))
      end.
Proof.
  intros cookies Hplain.
  assert (Hin : forall nv, In nv cookies -> plain_cookie nv = true).
  { now apply forallb_forall. }
  assert (Hid : sessionId_of_header (Some (cookie_header cookies))
                = option_map snd
                    (find (fun nv => String.eqb (fst nv) "sessionId")
                          cookies)).
  { destruct cookies as [| nv0 cookies']; [reflexivity |].
    set (cookies := nv0 :: cookies') in *.
    unfold sessionId_of_header, cookie_header.
    rewrite (split_concat ";" " ").
    - rewrite find_map.
      rewrite (find_ext_in _ (fun nv => String.eqb (fst nv) "sessionId")).
      + destruct (find _ cookies) as [[n v] |] eqn:Hf; [| reflexivity].
        apply find_some in Hf. destruct Hf as [Hnv _].
        destruct (plain_cookie_parts _ (Hin _ Hnv)) as [_ [Hn [_ Hv]]].
        cbn [option_map fst snd] in *.
        rewrite (split_cons "=" "" n v Hn).
        now rewrite (split_single "=" "" v Hv).
      + intros nv Hnv.
        destruct (plain_cookie_parts _ (Hin _ Hnv)) as [_ [Hn _]].
        unfold startsWith.
        exact (prefix_name "sessionId" (fst nv) (snd nv) eq_refl Hn).
    - discriminate.
    - intros p Hp. apply in_map_iff in Hp. destruct Hp as [nv [<- Hnv]].
      destruct (plain_cookie_parts _ (Hin _ Hnv)) as [H1 [_ [H2 _]]].
      rewrite !free_of_append, H1, H2. reflexivity. }
  unfold read_sessionId. rewrite Hid.
  destruct (find _ cookies) as [[n v] |]; reflexivity.
Qed.

Lemma read_sessionId_of_cookie_header_witness :
  read_sessionId (Some "theme=dark; sessionId=abc123; lang=fr"%string)
  = inr "abc123"%string.
Proof.
  apply (read_sessionId_of_cookie_header
           [("theme", "dark"); ("sessionId", "abc123"); ("lang", "fr")]%string).
  reflexivity.
Defined.

(** X22.  Only the part of the cookie's value before its first '=' is
    used: for the header [sessionId=a=b] the middleware reads [a],
    whatever follows. *)
Theorem sessionId_cut_at_equals :
  forall (a b : string),
    free_of "=" a = true -> free_of ";" a = true -> free_of ";" b = true ->
    sessionId_of_header (Some ("sessionId=" ++ a ++ "=" ++ b)%string)
    = Some a.
Proof.
  intros a b Ha Hsa Hsb. unfold sessionId_of_header.
  rewrite (split_single ";" " ").
  - cbn [find]. unfold startsWith.
    rewrite (prefix_append "sessionId=" (a ++ "=" ++ b)).
    change ("sessionId=" ++ a ++ "=" ++ b)%string
      with ("sessionId" ++ "=" ++ (a ++ "=" ++ b))%string.
    rewrite (split_cons "=" "" "sessionId" _ eq_refl).
    rewrite (split_cons "=" "" a b Ha). reflexivity.
  - change ("sessionId=" ++ a ++ "=" ++ b)%string
      with ("sessionId=" ++ (a ++ "=" ++ b))%string.
    rewrite !free_of_append, Hsa, Hsb. reflexivity.
Qed.

Lemma sessionId_cut_at_equals_witness :
  sessionId_of_header (Some "sessionId=YWJj=="%string) = Some "YWJj"%string.
Proof.
  apply (sessionId_cut_at_equals "YWJj" "="); reflexivity.
Defined.

